(** * people-to-comic: a shallow embedding of [src/index.tsx]

    The program is a single browser module: a file input, three option
    controls, a convert button, an output container and a download link,
    wired to one remote image-generation call.  The DOM elements the module
    references and its one module variable ([uploadedFile]) become the fields
    of a record [Page]; every function of the module becomes a function on
    [Page].  Code that can throw runs in a small state-and-exception monad in
    which the mutations made before a throw persist, as they do in
    JavaScript.

    The click handler is asynchronous.  [handleConvertToComic] is the
    handler run in one piece; [click_start], [after_read] and
    [after_response] are the handler cut at its two awaits, and [step] and
    [play] let selections, clicks and other conversions fall between the
    parts, on a [World] that holds the page and the conversions in flight. *)

From Stdlib Require Import String Ascii List NArith.
From Stdlib Require Import FunInd.
Import ListNotations.

Local Open Scope list_scope.
Local Open Scope string_scope.

(** ** Strings *)

Module Str.

(** [s.includes(needle)]: substring test. *)
Fixpoint includes (needle s : string) : bool :=
  if String.prefix needle s then true
  else match s with
       | EmptyString => false
       | String _ rest => includes needle rest
       end.

(** Occurrence of a character. *)
Fixpoint mem (c : ascii) (s : string) : bool :=
  match s with
  | EmptyString => false
  | String a rest => if Ascii.eqb a c then true else mem c rest
  end.

(** [s.split(sep)] for a one-character separator: the segments between
    the occurrences of [sep]; never the empty array. *)
Fixpoint split (sep : ascii) (s : string) : list string :=
  match s with
  | EmptyString => [EmptyString]
  | String a rest =>
      if Ascii.eqb a sep then EmptyString :: split sep rest
      else match split sep rest with
           | seg :: segs => String a seg :: segs
           | [] => [String a EmptyString]
           end
  end.

End Str.

(** ** JavaScript values that reach a template literal *)

Inductive JsValue : Type :=
| VUndefined
| VString (s : string)
| VObject                            (* an ordinary object *)
| VNativeFunction (name : string).   (* a built-in function *)

(** [`${v}`]: the string a template literal substitutes for [v].  The text
    of a built-in function is the one V8 prints. *)
Definition template (v : JsValue) : string :=
  match v with
  | VUndefined => "undefined"
  | VString s => s
  | VObject => "[object Object]"
  | VNativeFunction name => "function " ++ name ++ "() { [native code] }"
  end.

(** An optional string field ([undefined] when absent) as a value. *)
Definition of_field (o : option string) : JsValue :=
  match o with
  | Some s => VString s
  | None => VUndefined
  end.

(** Association-list lookup: the own properties of an object literal. *)
Fixpoint own_property (props : list (string * string)) (key : string)
  : option string :=
  match props with
  | [] => None
  | (k, v) :: rest => if String.eqb k key then Some v else own_property rest key
  end.

(** The properties every object literal inherits from [Object.prototype]. *)
Definition Object_prototype_methods : list string :=
  [ "constructor"; "hasOwnProperty"; "isPrototypeOf"; "propertyIsEnumerable";
    "toLocaleString"; "toString"; "valueOf";
    "__defineGetter__"; "__defineSetter__";
    "__lookupGetter__"; "__lookupSetter__" ].

Definition constructor_name (key : string) : string :=
  if String.eqb key "constructor" then "Object" else key.

Definition Object_prototype (key : string) : JsValue :=
  if String.eqb key "__proto__" then VObject
  else if existsb (String.eqb key) Object_prototype_methods
       then VNativeFunction (constructor_name key)
       else VUndefined.

(** [obj[key]] on an object literal with string-valued own properties: the
    own property if there is one, else what the prototype chain gives. *)
Definition get_property (props : list (string * string)) (key : string)
  : JsValue :=
  match own_property props key with
  | Some v => VString v
  | None => Object_prototype key
  end.

(** ** The prompt builder (index.tsx, [buildPrompt]) *)

Definition baseInstruction : string :=
  "Convert this photo into a clean, high-contrast comic illustration with inky outlines, simplified shading, and halftone texture. Preserve the subject’s identity and scene composition.".

Definition styleMap : list (string * string) :=
  [ ("manga", "Style it like black-and-white manga, with screentone halftone, fine linework, and dynamic speed lines.");
    ("western", "Style it like a classic Western comic, with bold ink lines, flat cel-shading, and CMYK halftone dots.");
    ("pop-art", "Style it like Pop-art, with a bright saturated palette, thick outlines, and prominent halftone dots for a poster look.");
    ("cel-shade", "Style it with a clean cel-shaded look, using minimal outlines, smooth cel shadows, and a soft background.") ].

Definition backgroundClause : string :=
  " Replace the background with a clean white background.".

Definition frameClause : string :=
  " Add a classic comic book panel frame around the image, including a small empty caption box at the bottom.".

(** ** Files and the platform's reader *)

Record File : Type := mkFile {
  file_name : string;
  file_type : string;                        (* the MIME type, [file.type] *)
  file_content : option (list Byte.byte)     (* [None]: the read fails *)
}.

Module Base64.

Definition alphabet : string :=
  "ABCDEFGHIJKLMNOPQRSTUVWXYZabcdefghijklmnopqrstuvwxyz0123456789+/".

Definition pad : ascii := "="%char.

Definition digit (n : N) : ascii :=
  match String.get (N.to_nat n) alphabet with
  | Some c => c
  | None => pad
  end.

(** RFC 4648 encoding, three bytes to four digits. *)
Function encode (bytes : list Byte.byte) {struct bytes} : string :=
  match bytes with
  | [] => EmptyString
  | a :: [] =>
      let x := Byte.to_N a in
      String (digit (N.shiftr x 2))
        (String (digit (N.shiftl (N.land x 3) 4))
           (String pad (String pad EmptyString)))
  | a :: b :: [] =>
      let x := Byte.to_N a in
      let y := Byte.to_N b in
      String (digit (N.shiftr x 2))
        (String (digit (N.lor (N.shiftl (N.land x 3) 4) (N.shiftr y 4)))
           (String (digit (N.shiftl (N.land y 15) 2))
              (String pad EmptyString)))
  | a :: b :: c :: rest =>
      let x := Byte.to_N a in
      let y := Byte.to_N b in
      let z := Byte.to_N c in
      String (digit (N.shiftr x 2))
        (String (digit (N.lor (N.shiftl (N.land x 3) 4) (N.shiftr y 4)))
           (String (digit (N.lor (N.shiftl (N.land y 15) 2) (N.shiftr z 6)))
              (String (digit (N.land z 63)) (encode rest))))
  end.

End Base64.

(** [`data:${mimeType};base64,${data}`]: the data URI of a payload. *)
Definition dataUri (mimeType data : JsValue) : string :=
  "data:" ++ template mimeType ++ ";base64," ++ template data.

(** The media type the reader writes into a data URL: the file's type, or
    [application/octet-stream] for a file that has none. *)
Definition media_type (f : File) : string :=
  if String.eqb (file_type f) EmptyString
  then "application/octet-stream" else file_type f.

(** [FileReader.readAsDataURL]: what [reader.result] holds when the load
    event fires, or [None] when the error event fires instead. *)
Definition readAsDataURL (f : File) : option string :=
  match file_content f with
  | Some bytes =>
      Some (dataUri (VString (media_type f)) (VString (Base64.encode bytes)))
  | None => None
  end.

(** ** The remote service's messages *)

Record InlineData : Type := mkInlineData {
  data : option string;
  mimeType : option string
}.

Record Part : Type := mkPart {
  inlineData : option InlineData;
  text : option string
}.

Record Content : Type := mkContent {
  parts : option (list Part)
}.

Record Candidate : Type := mkCandidate {
  content : option Content
}.

Record GenerateContentResponse : Type := mkResponse {
  candidates : option (list Candidate)
}.

Inductive Modality : Type := IMAGE | TEXT.

Record Request : Type := mkRequest {
  req_model : string;
  req_parts : list Part;
  req_responseModalities : list Modality
}.

(** What a [catch] clause can receive. *)
Inductive Thrown : Type :=
| TypeError (what : string)        (* property access on undefined or null *)
| ProgressEvent                    (* the reader's error event *)
| ServiceError (message : string). (* whatever the client library rejects with *)

Inductive Settled : Type :=
| Resolved (response : GenerateContentResponse)
| Rejected (reason : Thrown).

(** The remote service, as the page sees it: how the promise returned by
    [ai.models.generateContent] settles for a given request. *)
Definition Remote : Type := Request -> Settled.

(** ** The page: DOM elements, module state and the calls it has made *)

Inductive Node : Type :=
| Markup (html : string)           (* content assigned through [innerHTML] *)
| Img (src alt : string).          (* an appended [Image] element *)

Record Page : Type := mkPage {
  fileInput_files : option (list File);
  fileNameSpan_textContent : string;
  originalImage_src : string;
  comicStyleSelect_value : string;
  keepBackgroundCheck_checked : bool;
  addFrameCheck_checked : bool;
  convertButton_disabled : bool;
  convertButton_textContent : string;
  comicOutputDiv_children : list Node;
  downloadButton_href : string;
  downloadButton_display : string;
  uploadedFile : option File;
  alerts : list string;              (* [alert] calls, oldest first *)
  console_errors : list Thrown;      (* [console.error] calls, oldest first *)
  requests : list Request;           (* [generateContent] calls, oldest first *)
  readers : list File                (* preview reads not yet loaded *)
}.

Section Setters.
Variable s : Page.

Definition set_fileNameSpan_textContent (v : string) : Page :=
  mkPage (fileInput_files s) v (originalImage_src s)
    (comicStyleSelect_value s) (keepBackgroundCheck_checked s)
    (addFrameCheck_checked s) (convertButton_disabled s)
    (convertButton_textContent s) (comicOutputDiv_children s)
    (downloadButton_href s) (downloadButton_display s) (uploadedFile s)
    (alerts s) (console_errors s) (requests s) (readers s).

Definition set_originalImage_src (v : string) : Page :=
  mkPage (fileInput_files s) (fileNameSpan_textContent s) v
    (comicStyleSelect_value s) (keepBackgroundCheck_checked s)
    (addFrameCheck_checked s) (convertButton_disabled s)
    (convertButton_textContent s) (comicOutputDiv_children s)
    (downloadButton_href s) (downloadButton_display s) (uploadedFile s)
    (alerts s) (console_errors s) (requests s) (readers s).

Definition set_convertButton_disabled (v : bool) : Page :=
  mkPage (fileInput_files s) (fileNameSpan_textContent s)
    (originalImage_src s) (comicStyleSelect_value s)
    (keepBackgroundCheck_checked s) (addFrameCheck_checked s) v
    (convertButton_textContent s) (comicOutputDiv_children s)
    (downloadButton_href s) (downloadButton_display s) (uploadedFile s)
    (alerts s) (console_errors s) (requests s) (readers s).

Definition set_convertButton_textContent (v : string) : Page :=
  mkPage (fileInput_files s) (fileNameSpan_textContent s)
    (originalImage_src s) (comicStyleSelect_value s)
    (keepBackgroundCheck_checked s) (addFrameCheck_checked s)
    (convertButton_disabled s) v (comicOutputDiv_children s)
    (downloadButton_href s) (downloadButton_display s) (uploadedFile s)
    (alerts s) (console_errors s) (requests s) (readers s).

Definition set_comicOutputDiv_children (v : list Node) : Page :=
  mkPage (fileInput_files s) (fileNameSpan_textContent s)
    (originalImage_src s) (comicStyleSelect_value s)
    (keepBackgroundCheck_checked s) (addFrameCheck_checked s)
    (convertButton_disabled s) (convertButton_textContent s) v
    (downloadButton_href s) (downloadButton_display s) (uploadedFile s)
    (alerts s) (console_errors s) (requests s) (readers s).

Definition set_downloadButton_href (v : string) : Page :=
  mkPage (fileInput_files s) (fileNameSpan_textContent s)
    (originalImage_src s) (comicStyleSelect_value s)
    (keepBackgroundCheck_checked s) (addFrameCheck_checked s)
    (convertButton_disabled s) (convertButton_textContent s)
    (comicOutputDiv_children s) v (downloadButton_display s)
    (uploadedFile s) (alerts s) (console_errors s) (requests s) (readers s).

Definition set_downloadButton_display (v : string) : Page :=
  mkPage (fileInput_files s) (fileNameSpan_textContent s)
    (originalImage_src s) (comicStyleSelect_value s)
    (keepBackgroundCheck_checked s) (addFrameCheck_checked s)
    (convertButton_disabled s) (convertButton_textContent s)
    (comicOutputDiv_children s) (downloadButton_href s) v
    (uploadedFile s) (alerts s) (console_errors s) (requests s) (readers s).

Definition set_uploadedFile (v : option File) : Page :=
  mkPage (fileInput_files s) (fileNameSpan_textContent s)
    (originalImage_src s) (comicStyleSelect_value s)
    (keepBackgroundCheck_checked s) (addFrameCheck_checked s)
    (convertButton_disabled s) (convertButton_textContent s)
    (comicOutputDiv_children s) (downloadButton_href s)
    (downloadButton_display s) v
    (alerts s) (console_errors s) (requests s) (readers s).

Definition set_alerts (v : list string) : Page :=
  mkPage (fileInput_files s) (fileNameSpan_textContent s)
    (originalImage_src s) (comicStyleSelect_value s)
    (keepBackgroundCheck_checked s) (addFrameCheck_checked s)
    (convertButton_disabled s) (convertButton_textContent s)
    (comicOutputDiv_children s) (downloadButton_href s)
    (downloadButton_display s) (uploadedFile s)
    v (console_errors s) (requests s) (readers s).

Definition set_console_errors (v : list Thrown) : Page :=
  mkPage (fileInput_files s) (fileNameSpan_textContent s)
    (originalImage_src s) (comicStyleSelect_value s)
    (keepBackgroundCheck_checked s) (addFrameCheck_checked s)
    (convertButton_disabled s) (convertButton_textContent s)
    (comicOutputDiv_children s) (downloadButton_href s)
    (downloadButton_display s) (uploadedFile s)
    (alerts s) v (requests s) (readers s).

Definition set_requests (v : list Request) : Page :=
  mkPage (fileInput_files s) (fileNameSpan_textContent s)
    (originalImage_src s) (comicStyleSelect_value s)
    (keepBackgroundCheck_checked s) (addFrameCheck_checked s)
    (convertButton_disabled s) (convertButton_textContent s)
    (comicOutputDiv_children s) (downloadButton_href s)
    (downloadButton_display s) (uploadedFile s)
    (alerts s) (console_errors s) v (readers s).

Definition set_readers (v : list File) : Page :=
  mkPage (fileInput_files s) (fileNameSpan_textContent s)
    (originalImage_src s) (comicStyleSelect_value s)
    (keepBackgroundCheck_checked s) (addFrameCheck_checked s)
    (convertButton_disabled s) (convertButton_textContent s)
    (comicOutputDiv_children s) (downloadButton_href s)
    (downloadButton_display s) (uploadedFile s)
    (alerts s) (console_errors s) (requests s) v.

End Setters.

(** ** Computations that mutate the page and may throw *)

Inductive Completion (A : Type) : Type :=
| Normal (value : A)
| Throw (exn : Thrown).

Arguments Normal {A} value.
Arguments Throw {A} exn.

(** A computation returns how it completed together with the page as it
    left it: what was written before a throw stays written. *)
Definition M (A : Type) : Type := Page -> Completion A * Page.

Definition ret {A} (a : A) : M A := fun s => (Normal a, s).

Definition throw {A} (e : Thrown) : M A := fun s => (Throw e, s).

Definition bind {A B} (m : M A) (k : A -> M B) : M B :=
  fun s =>
    match m s with
    | (Normal a, s') => k a s'
    | (Throw e, s') => (Throw e, s')
    end.

Definition gets {A} (f : Page -> A) : M A := fun s => (Normal (f s), s).

Definition modify (f : Page -> Page) : M unit := fun s => (Normal tt, f s).

Declare Scope js_scope.
Delimit Scope js_scope with js.
Notation "x <- m ;; k" := (bind m (fun x => k))
  (at level 61, m at next level, right associativity) : js_scope.
Notation "m ;; k" := (bind m (fun _ => k))
  (at level 61, right associativity) : js_scope.

(** [try { body } catch (e) { handler e } finally { cleanup }], for a
    handler and a cleanup that do not throw themselves. *)
Definition try_catch_finally
  (body : M unit) (handler : Thrown -> Page -> Page) (cleanup : Page -> Page)
  : Page -> Page :=
  fun s =>
    match body s with
    | (Normal _, s') => cleanup s'
    | (Throw e, s') => cleanup (handler e s')
    end.

(** ** Markup the page writes *)

Definition dquote : string := String (ascii_of_nat 34) EmptyString.

Definition placeholderMarkup : string :=
  "<div class=" ++ dquote ++ "placeholder" ++ dquote
    ++ ">Your comic version will appear here.</div>".

Definition spinnerMarkup : string :=
  "<div class=" ++ dquote ++ "spinner" ++ dquote ++ "></div>".

Definition errorMarkup : string :=
  "<p style=" ++ dquote ++ "color: red;" ++ dquote
    ++ ">An error occurred. Please try again.</p>".

Definition noImageMarkup : string :=
  "<p>Could not generate an image from the response.</p>".

(** [comicOutputDiv.innerHTML = html] *)
Definition set_innerHTML (html : string) (s : Page) : Page :=
  set_comicOutputDiv_children s
    (if String.eqb html EmptyString then [] else [Markup html]).

(** [comicOutputDiv.appendChild(node)] *)
Definition appendChild (n : Node) (s : Page) : Page :=
  set_comicOutputDiv_children s (comicOutputDiv_children s ++ [n]).

Definition alert (message : string) (s : Page) : Page :=
  set_alerts s (alerts s ++ [message]).

Definition console_error (e : Thrown) (s : Page) : Page :=
  set_console_errors s (console_errors s ++ [e]).

(** ** index.tsx, the functions *)

Definition model : string := "gemini-2.5-flash-image-preview".

(** [handleFileChange]: the synchronous part of the [change] listener.  The
    preview reader it starts is queued in [readers]; its [onload] callback
    is [reader_onload] below. *)
Definition handleFileChange (s : Page) : Page :=
  match fileInput_files s with
  | Some (f :: _) =>
      let s := set_uploadedFile s (Some f) in
      let s := set_fileNameSpan_textContent s (file_name f) in
      let s := set_readers s (readers s ++ [f]) in
      let s := set_convertButton_disabled s false in
      let s := set_downloadButton_display s "none" in
      set_innerHTML placeholderMarkup s
  | _ => s
  end.

(** The preview reader's [onload]: [originalImage.src = e.target.result].
    That reader has no [onerror]: a failed read changes nothing. *)
Definition reader_onload (s : Page) : Page :=
  match readers s with
  | [] => s
  | f :: pending =>
      let s := set_readers s pending in
      match readAsDataURL f with
      | Some url => set_originalImage_src s url
      | None => s
      end
  end.

(** [fileToBase64]: resolves with [result.split(',')[1]], which is
    [undefined] ([None]) when the result has no comma; rejects with the
    reader's error event. *)
Definition fileToBase64 (file : File) : M (option string) :=
  match readAsDataURL file with
  | Some result => ret (nth_error (Str.split ","%char result) 1)
  | None => throw ProgressEvent
  end.

(** [buildPrompt] *)
Definition buildPrompt (s : Page) : string :=
  let finalPrompt := baseInstruction in
  let finalPrompt :=
    finalPrompt ++ " "
      ++ template (get_property styleMap (comicStyleSelect_value s)) in
  let finalPrompt :=
    if negb (keepBackgroundCheck_checked s)
    then finalPrompt ++ backgroundClause else finalPrompt in
  let finalPrompt :=
    if addFrameCheck_checked s
    then finalPrompt ++ frameClause else finalPrompt in
  finalPrompt.

(** [parts.find(part => part.inlineData)] *)
Definition hasInlineData (p : Part) : bool :=
  match inlineData p with
  | Some _ => true
  | None => false
  end.

(** [displayResult]; called on [undefined] it throws at [parts.find]. *)
Definition displayResult (parts : option (list Part)) : M unit :=
  match parts with
  | None => throw (TypeError "parts.find")
  | Some parts =>
      match find hasInlineData parts with
      | Some imagePart =>
          match inlineData imagePart with
          | Some blob =>
              let imageUrl :=
                dataUri (of_field (mimeType blob)) (of_field (data blob)) in
              modify (fun s =>
                let s := set_innerHTML EmptyString s in
                let s := appendChild (Img imageUrl "Generated comic-style image") s in
                let s := set_downloadButton_href s imageUrl in
                set_downloadButton_display s "inline-block")
          | None => throw (TypeError "imagePart.inlineData.data")
          end
      | None => modify (set_innerHTML noImageMarkup)
      end
  end.

(** [setLoadingState] *)
Definition setLoadingState (isLoading : bool) (s : Page) : Page :=
  let s := set_convertButton_disabled s isLoading in
  if isLoading then
    let s := set_convertButton_textContent s "Converting..." in
    let s := set_innerHTML spinnerMarkup s in
    set_downloadButton_display s "none"
  else
    set_convertButton_textContent s "Convert to Comic".

(** [await ai.models.generateContent(request)]: the call is recorded, then
    the promise settles as the service decides. *)
Definition generateContent (ai : Remote) (request : Request)
  : M GenerateContentResponse :=
  fun s =>
    let s := set_requests s (requests s ++ [request]) in
    match ai request with
    | Resolved response => (Normal response, s)
    | Rejected reason => (Throw reason, s)
    end.

(** [response.candidates[0].content.parts]: each access on [undefined]
    throws; the last one yields whatever [parts] holds. *)
Definition response_parts (response : GenerateContentResponse)
  : M (option (list Part)) :=
  match candidates response with
  | None => throw (TypeError "response.candidates[0]")
  | Some cs =>
      match nth_error cs 0 with
      | None => throw (TypeError "response.candidates[0].content")
      | Some candidate =>
          match content candidate with
          | None => throw (TypeError "response.candidates[0].content.parts")
          | Some c => ret (parts c)
          end
      end
  end.

(** [uploadedFile.type], read from the module variable. *)
Definition uploadedFile_type : M string :=
  fun s =>
    match uploadedFile s with
    | Some f => (Normal (file_type f), s)
    | None => (Throw (TypeError "uploadedFile.type"), s)
    end.

Local Open Scope js_scope.

(** The [try] block of [handleConvertToComic], run for the file that
    [uploadedFile] held when the handler started. *)
Definition convert_body (ai : Remote) (file : File) : M unit :=
  base64ImageData <- fileToBase64 file ;;
  mimeType <- uploadedFile_type ;;
  prompt <- gets buildPrompt ;;
  response <- generateContent ai
    (mkRequest model
       [ mkPart (Some (mkInlineData base64ImageData (Some mimeType))) None;
         mkPart None (Some prompt) ]
       [IMAGE; TEXT]) ;;
  parts <- response_parts response ;;
  displayResult parts.

(** The [catch] block. *)
Definition convert_catch (error : Thrown) (s : Page) : Page :=
  set_innerHTML errorMarkup (console_error error s).

(** [handleConvertToComic], for a click whose two awaits resume with no
    other listener run in between, against a service [ai] whose promise
    settles.  The handler cut at its awaits, so that other events can fall
    between its parts, is [click_start], [after_read] and [after_response]
    below; [uninterleaved_click] relates the two. *)
Definition handleConvertToComic (ai : Remote) (s : Page) : Page :=
  match uploadedFile s with
  | None => alert "Please upload an image first." s
  | Some file =>
      try_catch_finally (convert_body ai file) convert_catch
        (setLoadingState false) (setLoadingState true s)
  end.

Local Close Scope js_scope.

(** ** Sample inputs and the predicates the statements use *)

(** The keys of the style table, in table order. *)
Definition styles : list string := map fst styleMap.

(** Names that [styleMap[key]] resolves through the prototype chain. *)
Definition inherited_keys : list string :=
  "__proto__" :: Object_prototype_methods.

(** A page with nothing uploaded or displayed yet, for given controls. *)
Definition fresh_page (style : string) (keepBackground addFrame : bool)
  (files : option (list File)) : Page :=
  mkPage files EmptyString EmptyString style keepBackground addFrame
    true "Convert to Comic" [Markup placeholderMarkup]
    EmptyString "none" None [] [] [] [].

(** A two-byte readable file, and the same bytes under a MIME type that
    contains a comma. *)
Definition photo : File :=
  mkFile "photo.png" "image/png" (Some [Byte.x68; Byte.x69]).

Definition odd_photo : File :=
  mkFile "photo.bin" "a,b" (Some [Byte.x68; Byte.x69]).

(** A page on which [photo] has been selected. *)
Definition ready_page : Page :=
  handleFileChange (fresh_page "manga" false true (Some [photo])).

Definition image_part : Part :=
  mkPart (Some (mkInlineData (Some "QUJD") (Some "image/png"))) None.

Definition text_part : Part := mkPart None (Some "Here is your comic.").

Definition respond_with (ps : option (list Part)) : GenerateContentResponse :=
  mkResponse (Some [mkCandidate (Some (mkContent ps))]).

(** The response shapes on which [response.candidates[0].content.parts]
    throws or yields [undefined]. *)
Definition lacks_parts (response : GenerateContentResponse) : Prop :=
  candidates response = None
  \/ candidates response = Some []
  \/ exists c rest,
       candidates response = Some (c :: rest)
       /\ (content c = None \/ content c = Some (mkContent None)).

(** The prompt in the order the clauses are appended, for a style clause
    already rendered to text. *)
Definition assembled (styleText : string) (keepBackground addFrame : bool)
  : string :=
  ((baseInstruction ++ " " ++ styleText)
     ++ (if keepBackground then EmptyString else backgroundClause))
    ++ (if addFrame then frameClause else EmptyString).

(** ** The user's actions and the listeners they trigger *)

Section Controls.
Variable s : Page.

Definition set_fileInput_files (v : option (list File)) : Page :=
  mkPage v (fileNameSpan_textContent s) (originalImage_src s)
    (comicStyleSelect_value s) (keepBackgroundCheck_checked s)
    (addFrameCheck_checked s) (convertButton_disabled s)
    (convertButton_textContent s) (comicOutputDiv_children s)
    (downloadButton_href s) (downloadButton_display s) (uploadedFile s)
    (alerts s) (console_errors s) (requests s) (readers s).

Definition set_comicStyleSelect_value (v : string) : Page :=
  mkPage (fileInput_files s) (fileNameSpan_textContent s)
    (originalImage_src s) v (keepBackgroundCheck_checked s)
    (addFrameCheck_checked s) (convertButton_disabled s)
    (convertButton_textContent s) (comicOutputDiv_children s)
    (downloadButton_href s) (downloadButton_display s) (uploadedFile s)
    (alerts s) (console_errors s) (requests s) (readers s).

Definition set_keepBackgroundCheck_checked (v : bool) : Page :=
  mkPage (fileInput_files s) (fileNameSpan_textContent s)
    (originalImage_src s) (comicStyleSelect_value s) v
    (addFrameCheck_checked s) (convertButton_disabled s)
    (convertButton_textContent s) (comicOutputDiv_children s)
    (downloadButton_href s) (downloadButton_display s) (uploadedFile s)
    (alerts s) (console_errors s) (requests s) (readers s).

Definition set_addFrameCheck_checked (v : bool) : Page :=
  mkPage (fileInput_files s) (fileNameSpan_textContent s)
    (originalImage_src s) (comicStyleSelect_value s)
    (keepBackgroundCheck_checked s) v (convertButton_disabled s)
    (convertButton_textContent s) (comicOutputDiv_children s)
    (downloadButton_href s) (downloadButton_display s) (uploadedFile s)
    (alerts s) (console_errors s) (requests s) (readers s).

End Controls.

(** What can happen to the page.  The module registers two listeners
    ([change] on the file input, [click] on the convert button); the three
    option controls have none, so acting on them only changes the control;
    the last event is the preview reader finishing. *)
Inductive Event : Type :=
| SelectFiles (files : list File)
| SelectStyle (value : string)
| SetKeepBackground (checked : bool)
| SetAddFrame (checked : bool)
| ClickConvert
| PreviewLoaded.

(** One event.  A disabled button dispatches no [click]. *)
Definition dispatch (ai : Remote) (s : Page) (e : Event) : Page :=
  match e with
  | SelectFiles files => handleFileChange (set_fileInput_files s (Some files))
  | SelectStyle value => set_comicStyleSelect_value s value
  | SetKeepBackground checked => set_keepBackgroundCheck_checked s checked
  | SetAddFrame checked => set_addFrameCheck_checked s checked
  | ClickConvert =>
      if convertButton_disabled s then s else handleConvertToComic ai s
  | PreviewLoaded => reader_onload s
  end.

(** A session: events handled one after the other, each to completion. *)
Definition run (ai : Remote) (events : list Event) (s : Page) : Page :=
  fold_left (dispatch ai) events s.

(** The object literal passed to [generateContent]. *)
Definition conversion_request
  (base64ImageData : option string) (type prompt : string) : Request :=
  mkRequest model
    [ mkPart (Some (mkInlineData base64ImageData (Some type))) None;
      mkPart None (Some prompt) ]
    [IMAGE; TEXT].

(** The download link is visible only beside the one image it downloads. *)
Definition download_matches_image (s : Page) : Prop :=
  downloadButton_display s = "inline-block" ->
  comicOutputDiv_children s
  = [Img (downloadButton_href s) "Generated comic-style image"].

(** An enabled convert button means a file has been selected. *)
Definition enabled_means_file (s : Page) : Prop :=
  convertButton_disabled s = false -> uploadedFile s <> None.

(** How a click on a page holding a file can leave the output container
    and the download link. *)
Inductive Outcome (s : Page) : Prop :=
| ShowsError :
    comicOutputDiv_children s = [Markup errorMarkup] ->
    downloadButton_display s = "none" -> Outcome s
| ShowsNoImage :
    comicOutputDiv_children s = [Markup noImageMarkup] ->
    downloadButton_display s = "none" -> Outcome s
| ShowsImage (url : string) :
    comicOutputDiv_children s = [Img url "Generated comic-style image"] ->
    downloadButton_href s = url ->
    downloadButton_display s = "inline-block" -> Outcome s.

(** The page [displayResult] leaves when it shows the image at [url]. *)
Definition with_image (url : string) (s : Page) : Page :=
  set_downloadButton_display
    (set_downloadButton_href
       (set_comicOutputDiv_children s [Img url "Generated comic-style image"])
       url)
    "inline-block".

(** The pages a click can end in, starting from the page [s] as
    [setLoadingState(true)] and the request log left it. *)
Inductive Ending (s : Page) : Page -> Prop :=
| EndsCaught (e : Thrown) :
    Ending s (setLoadingState false (convert_catch e s))
| EndsNoImage :
    Ending s (setLoadingState false (set_innerHTML noImageMarkup s))
| EndsImage (url : string) :
    Ending s (setLoadingState false (with_image url s)).

(** ** The click handler, cut at its awaits *)

(** A conversion that has been started and is suspended. *)
Inductive Flow : Type :=
| AwaitingRead (file : File)            (* at [await fileToBase64(...)] *)
| AwaitingResponse (request : Request). (* at [await generateContent(...)] *)

(** The page together with the conversions in flight, oldest first. *)
Record World : Type := mkWorld {
  page : Page;
  inflight : list Flow
}.

Definition on_page (f : Page -> Page) (w : World) : World :=
  mkWorld (f (page w)) (inflight w).

Fixpoint remove_nth {A} (i : nat) (l : list A) : list A :=
  match l, i with
  | [], _ => []
  | _ :: rest, O => rest
  | x :: rest, S j => x :: remove_nth j rest
  end.

Fixpoint replace_nth {A} (i : nat) (y : A) (l : list A) : list A :=
  match l, i with
  | [], _ => []
  | _ :: rest, O => y :: rest
  | x :: rest, S j => x :: replace_nth j y rest
  end.

(** The handler up to its first await: the guard, [setLoadingState(true)]
    and the call of [fileToBase64] on the file that is uploaded now. *)
Definition click_start (w : World) : World :=
  match uploadedFile (page w) with
  | None => on_page (alert "Please upload an image first.") w
  | Some file =>
      mkWorld (setLoadingState true (page w))
        (inflight w ++ [AwaitingRead file])
  end.

Local Open Scope js_scope.

(** From the first await to the second: the payload of the file read, then
    [uploadedFile.type] and [buildPrompt()] on the page as it is now, then
    the call of [generateContent], which is recorded. *)
Definition build_request (file : File) : M Request :=
  base64ImageData <- fileToBase64 file ;;
  mimeType <- uploadedFile_type ;;
  prompt <- gets buildPrompt ;;
  ret (conversion_request base64ImageData mimeType prompt).

Local Close Scope js_scope.

(** The read of [file] settles: either the request goes out and the flow
    waits for the response, or the [catch] and [finally] blocks run and the
    flow is over. *)
Definition after_read (file : File) (s : Page) : Page * option Flow :=
  match build_request file s with
  | (Normal request, s') =>
      (set_requests s' (requests s' ++ [request]),
       Some (AwaitingResponse request))
  | (Throw e, s') => (setLoadingState false (convert_catch e s'), None)
  end.

(** The promise of [generateContent] settles: the rest of the [try] block,
    then [catch] and [finally]. *)
Definition after_response (settled : Settled) (s : Page) : Page :=
  try_catch_finally
    (match settled with
     | Resolved response => bind (response_parts response) displayResult
     | Rejected reason => throw reason
     end)
    convert_catch (setLoadingState false) s.

(** What can happen to the page and its conversions in flight: an action of
    the user, or one of the awaited promises settling.  The flow concerned
    is named by its position in [inflight]; the environment chooses when a
    promise settles and how the service answers. *)
Inductive Happening : Type :=
| User (e : Event)
| ReadSettles (i : nat)
| ResponseSettles (i : nat) (settled : Settled).

Definition step (w : World) (h : Happening) : World :=
  match h with
  | User (SelectFiles files) =>
      on_page (fun s => handleFileChange (set_fileInput_files s (Some files))) w
  | User (SelectStyle value) =>
      on_page (fun s => set_comicStyleSelect_value s value) w
  | User (SetKeepBackground checked) =>
      on_page (fun s => set_keepBackgroundCheck_checked s checked) w
  | User (SetAddFrame checked) =>
      on_page (fun s => set_addFrameCheck_checked s checked) w
  | User ClickConvert =>
      if convertButton_disabled (page w) then w else click_start w
  | User PreviewLoaded => on_page reader_onload w
  | ReadSettles i =>
      match nth_error (inflight w) i with
      | Some (AwaitingRead file) =>
          match after_read file (page w) with
          | (s', Some flow) => mkWorld s' (replace_nth i flow (inflight w))
          | (s', None) => mkWorld s' (remove_nth i (inflight w))
          end
      | _ => w
      end
  | ResponseSettles i settled =>
      match nth_error (inflight w) i with
      | Some (AwaitingResponse _) =>
          mkWorld (after_response settled (page w))
            (remove_nth i (inflight w))
      | _ => w
      end
  end.

(** A session in which conversions may overlap. *)
Definition play (happenings : list Happening) (w : World) : World :=
  fold_left step happenings w.

(** Sessions in which no click falls while a conversion is in flight. *)
Fixpoint one_at_a_time (happenings : list Happening) (w : World) : Prop :=
  match happenings with
  | [] => True
  | h :: rest =>
      (h = User ClickConvert -> inflight w = [])
      /\ one_at_a_time rest (step w h)
  end.

(** How the page is left when a conversion ends, against the page as it was
    just before: only a displayed image touches the download link. *)
Inductive Completed (before after : Page) : Prop :=
| CompletedError :
    comicOutputDiv_children after = [Markup errorMarkup] ->
    downloadButton_display after = downloadButton_display before ->
    downloadButton_href after = downloadButton_href before ->
    Completed before after
| CompletedNoImage :
    comicOutputDiv_children after = [Markup noImageMarkup] ->
    downloadButton_display after = downloadButton_display before ->
    downloadButton_href after = downloadButton_href before ->
    Completed before after
| CompletedImage (url : string) :
    comicOutputDiv_children after = [Img url "Generated comic-style image"] ->
    downloadButton_href after = url ->
    downloadButton_display after = "inline-block" ->
    Completed before after.

(** A second file, for sessions in which the selection changes. *)
Definition sketch : File :=
  mkFile "sketch.jpg" "image/jpeg" (Some [Byte.x6f; Byte.x6b]).

(** A file to which the platform gave no type. *)
Definition untyped : File :=
  mkFile "photo" EmptyString (Some [Byte.x68; Byte.x69]).

(** The session of two overlapping conversions: the second click falls
    while the first conversion waits for its response; the first response
    holds an image, the second only text. *)
Definition overlapping_session : list Happening :=
  [ User (SelectFiles [photo]); User ClickConvert; ReadSettles 0;
    User (SelectFiles [sketch]); User ClickConvert; ReadSettles 1;
    ResponseSettles 0 (Resolved (respond_with (Some [image_part])));
    ResponseSettles 0 (Resolved (respond_with (Some [text_part]))) ].

(** The spinner and the "Converting..." label are on the page only while a
    conversion is in flight. *)
Definition running_means_inflight (w : World) : Prop :=
  comicOutputDiv_children (page w) = [Markup spinnerMarkup]
  \/ convertButton_textContent (page w) = "Converting..." ->
  inflight w <> [].

(** While at most one conversion is in flight, a conversion in flight
    means a hidden download link. *)
Definition alone_and_hidden (w : World) : Prop :=
  (inflight w = []
   \/ ((exists flow, inflight w = [flow])
       /\ downloadButton_display (page w) = "none"))
  /\ download_matches_image (page w).

(** * Properties *)

(** ** Strings *)

Lemma append_empty_r (s : string) : s ++ EmptyString = s.
Proof. induction s as [|a s IH]; simpl; [reflexivity | now rewrite IH]. Qed.

Lemma append_assoc (a b c : string) : (a ++ b) ++ c = a ++ (b ++ c).
Proof. induction a as [|x a IH]; simpl; [reflexivity | now rewrite IH]. Qed.

Lemma mem_append (c : ascii) (a b : string) :
  Str.mem c (a ++ b) = orb (Str.mem c a) (Str.mem c b).
Proof.
  induction a as [|x a IH]; simpl; [reflexivity |].
  destruct (Ascii.eqb x c); [reflexivity | exact IH].
Qed.

Lemma split_without_sep (sep : ascii) (s : string) :
  Str.mem sep s = false -> Str.split sep s = [s].
Proof.
  induction s as [|a s IH]; simpl; [reflexivity |].
  destruct (Ascii.eqb a sep); [discriminate |].
  intros H. now rewrite (IH H).
Qed.

Lemma split_at_first_sep (sep : ascii) (p q : string) :
  Str.mem sep p = false ->
  Str.split sep (p ++ String sep q) = p :: Str.split sep q.
Proof.
  induction p as [|a p IH]; simpl.
  - intros _. now rewrite Ascii.eqb_refl.
  - destruct (Ascii.eqb a sep); [discriminate |].
    intros H. now rewrite (IH H).
Qed.

(** [split] on the inputs whose results JavaScript documents. *)
Example split_three : Str.split ","%char "a,b,c" = ["a"; "b"; "c"].
Proof. reflexivity. Qed.

Example split_empty : Str.split ","%char EmptyString = [EmptyString].
Proof. reflexivity. Qed.

Example split_only_sep :
  Str.split ","%char "," = [EmptyString; EmptyString].
Proof. reflexivity. Qed.

(** The test vectors of RFC 4648, section 10. *)
Example encode_f : Base64.encode [Byte.x66] = "Zg==".
Proof. reflexivity. Qed.

Example encode_fo : Base64.encode [Byte.x66; Byte.x6f] = "Zm8=".
Proof. reflexivity. Qed.

Example encode_foo : Base64.encode [Byte.x66; Byte.x6f; Byte.x6f] = "Zm9v".
Proof. reflexivity. Qed.

Example encode_foobar :
  Base64.encode [Byte.x66; Byte.x6f; Byte.x6f; Byte.x62; Byte.x61; Byte.x72]
  = "Zm9vYmFy".
Proof. reflexivity. Qed.

(** ** The prompt builder *)

Lemma buildPrompt_assembled (s : Page) :
  buildPrompt s =
  assembled (template (get_property styleMap (comicStyleSelect_value s)))
    (keepBackgroundCheck_checked s) (addFrameCheck_checked s).
Proof.
  unfold buildPrompt, assembled.
  destruct (keepBackgroundCheck_checked s), (addFrameCheck_checked s); simpl negb; cbv iota;
    now rewrite ?append_empty_r.
Qed.

Lemma styleMap_entries (key clause : string) :
  In (key, clause) styleMap ->
  get_property styleMap key = VString clause.
Proof.
  unfold styleMap.
  intros H; repeat (destruct H as [H | H]; [inversion H; subst; reflexivity |]).
  destruct H.
Qed.

Ltac each_entry H :=
  unfold styleMap in H;
  repeat (destruct H as [H | H]; [inversion H; subst; clear H |]);
  [ .. | destruct H ].

(** C1.  When the selected style is one of the four keys of the style table,
    the prompt contains the clause the table maps it to, verbatim, and
    contains the clause of no other key. *)
Theorem buildPrompt_style_clause (s : Page) (clause : string) :
  In (comicStyleSelect_value s, clause) styleMap ->
  Str.includes clause (buildPrompt s) = true
  /\ forall key other,
       In (key, other) styleMap ->
       key <> comicStyleSelect_value s ->
       Str.includes other (buildPrompt s) = false.
Proof.
  intros Hstyle.
  rewrite buildPrompt_assembled, (styleMap_entries _ _ Hstyle).
  simpl template.
  split.
  - each_entry Hstyle;
      destruct (keepBackgroundCheck_checked s), (addFrameCheck_checked s);
      vm_compute; reflexivity.
  - intros key other Hkey Hne.
    each_entry Hstyle; each_entry Hkey; try congruence;
      destruct (keepBackgroundCheck_checked s), (addFrameCheck_checked s);
      vm_compute; reflexivity.
Qed.

(** Witness for C1: the manga page. *)
Lemma buildPrompt_style_clause_witness :
  let s := fresh_page "manga" false true None in
  let clause := "Style it like black-and-white manga, with screentone halftone, fine linework, and dynamic speed lines." in
  In (comicStyleSelect_value s, clause) styleMap
  /\ Str.includes clause (buildPrompt s) = true
  /\ forall key other,
       In (key, other) styleMap ->
       key <> comicStyleSelect_value s ->
       Str.includes other (buildPrompt s) = false.
Proof.
  intros s clause.
  assert (H : In (comicStyleSelect_value s, clause) styleMap)
    by (left; reflexivity).
  split; [exact H | exact (buildPrompt_style_clause s clause H)].
Defined.

Lemma strings_differ (a b : string) : String.eqb a b = false -> a <> b.
Proof. intros H E. apply String.eqb_eq in E. congruence. Qed.

Lemma styles_entries (key : string) :
  In key styles -> exists clause, In (key, clause) styleMap.
Proof.
  unfold styles. intros H. apply in_map_iff in H.
  destruct H as [[k c] [E H]]. simpl in E. subst k. now exists c.
Qed.

(** C2.  For pages [s] and [s'] whose styles are keys of the table: the
    prompt of [s] is the base instruction, the style clause, the background
    clause and the frame clause, in that order, with the background clause
    present exactly when keep-background is off and the frame clause exactly
    when add-frame is on; and two such pages get the same prompt only when
    they agree on the style and on both flags, so the sixteen combinations
    give sixteen different prompts. *)
Theorem buildPrompt_flags (s s' : Page) (clause : string) :
  In (comicStyleSelect_value s, clause) styleMap ->
  In (comicStyleSelect_value s') styles ->
  buildPrompt s =
    baseInstruction ++ " " ++ clause
      ++ (if keepBackgroundCheck_checked s then EmptyString else backgroundClause)
      ++ (if addFrameCheck_checked s then frameClause else EmptyString)
  /\ Str.includes backgroundClause (buildPrompt s)
     = negb (keepBackgroundCheck_checked s)
  /\ Str.includes frameClause (buildPrompt s) = addFrameCheck_checked s
  /\ (buildPrompt s = buildPrompt s' ->
      comicStyleSelect_value s = comicStyleSelect_value s'
      /\ keepBackgroundCheck_checked s = keepBackgroundCheck_checked s'
      /\ addFrameCheck_checked s = addFrameCheck_checked s').
Proof.
  intros Hs Hs'.
  destruct (styles_entries _ Hs') as [clause' Hc'].
  rewrite !buildPrompt_assembled.
  rewrite (styleMap_entries _ _ Hs), (styleMap_entries _ _ Hc').
  simpl template.
  split; [| split; [| split]].
  - unfold assembled. now rewrite !append_assoc.
  - each_entry Hs;
      destruct (keepBackgroundCheck_checked s), (addFrameCheck_checked s);
      vm_compute; reflexivity.
  - each_entry Hs;
      destruct (keepBackgroundCheck_checked s), (addFrameCheck_checked s);
      vm_compute; reflexivity.
  - each_entry Hs; each_entry Hc';
      destruct (keepBackgroundCheck_checked s), (addFrameCheck_checked s),
        (keepBackgroundCheck_checked s'), (addFrameCheck_checked s');
      intros E;
      first [ repeat split; congruence
            | exfalso; revert E; apply strings_differ;
              vm_compute; reflexivity ].
Qed.

(** Witness for C2: a western page with both flags off against a pop-art
    page with both flags on. *)
Lemma buildPrompt_flags_witness :
  let s := fresh_page "western" false false None in
  let s' := fresh_page "pop-art" true true None in
  let clause := "Style it like a classic Western comic, with bold ink lines, flat cel-shading, and CMYK halftone dots." in
  In (comicStyleSelect_value s, clause) styleMap
  /\ In (comicStyleSelect_value s') styles
  /\ buildPrompt s = baseInstruction ++ " " ++ clause ++ backgroundClause
  /\ Str.includes backgroundClause (buildPrompt s) = true
  /\ Str.includes frameClause (buildPrompt s) = false.
Proof.
  intros s s' clause.
  assert (H : In (comicStyleSelect_value s, clause) styleMap)
    by (right; left; reflexivity).
  assert (H' : In (comicStyleSelect_value s') styles)
    by (right; right; left; reflexivity).
  destruct (buildPrompt_flags s s' clause H H') as [He [Hb [Hf _]]].
  split; [exact H | split; [exact H' |]].
  split; [| split; [exact Hb | exact Hf]].
  rewrite He. reflexivity.
Defined.

Lemma own_property_absent (props : list (string * string)) (key : string) :
  ~ In key (map fst props) -> own_property props key = None.
Proof.
  induction props as [|[k v] props IH]; simpl; [reflexivity |].
  intros H. destruct (String.eqb_spec k key) as [E | _].
  - exfalso. apply H. now left.
  - apply IH. intros Hin. apply H. now right.
Qed.

Lemma Object_prototype_absent (key : string) :
  ~ In key inherited_keys -> Object_prototype key = VUndefined.
Proof.
  unfold inherited_keys, Object_prototype. intros H.
  destruct (String.eqb_spec key "__proto__") as [E | _].
  - exfalso. apply H. left. now symmetry.
  - destruct (existsb (String.eqb key) Object_prototype_methods) eqn:Ex;
      [| reflexivity].
    apply existsb_exists in Ex. destruct Ex as [m [Hin Hm]].
    apply String.eqb_eq in Hm. subst m.
    exfalso. apply H. now right.
Qed.

(** C8, as the code has it.  For a style value that is neither a key of the
    style table nor a property name that an object literal inherits from
    [Object.prototype], the lookup yields [undefined] and the prompt is the
    base instruction followed by the text "undefined", then the background
    and frame clauses as usual. *)
Theorem buildPrompt_unlisted_style (s : Page) :
  ~ In (comicStyleSelect_value s) styles ->
  ~ In (comicStyleSelect_value s) inherited_keys ->
  get_property styleMap (comicStyleSelect_value s) = VUndefined
  /\ buildPrompt s =
       baseInstruction ++ " undefined"
         ++ (if keepBackgroundCheck_checked s then EmptyString else backgroundClause)
         ++ (if addFrameCheck_checked s then frameClause else EmptyString).
Proof.
  intros Hown Hproto.
  assert (G : get_property styleMap (comicStyleSelect_value s) = VUndefined).
  { unfold get_property.
    rewrite (own_property_absent _ _ Hown).
    now apply Object_prototype_absent. }
  split; [exact G |].
  rewrite buildPrompt_assembled, G. unfold assembled. simpl template.
  now rewrite !append_assoc.
Qed.

Ltac not_listed :=
  simpl; intros H;
  repeat (destruct H as [H | H]; [discriminate H |]); exact H.

(** Witness for C8: the style value "noir". *)
Lemma buildPrompt_unlisted_style_witness :
  let s := fresh_page "noir" true true None in
  ~ In (comicStyleSelect_value s) styles
  /\ ~ In (comicStyleSelect_value s) inherited_keys
  /\ buildPrompt s = baseInstruction ++ " undefined" ++ frameClause.
Proof.
  intros s.
  assert (H1 : ~ In (comicStyleSelect_value s) styles) by not_listed.
  assert (H2 : ~ In (comicStyleSelect_value s) inherited_keys) by not_listed.
  split; [exact H1 | split; [exact H2 |]].
  exact (proj2 (buildPrompt_unlisted_style s H1 H2)).
Defined.

(** Counterexample to C8 as stated: "__proto__" is not one of the four keys,
    yet the lookup finds the object's prototype and the prompt carries
    "[object Object]", not "undefined". *)
Lemma buildPrompt_proto_style :
  let s := fresh_page "__proto__" true false None in
  ~ In (comicStyleSelect_value s) styles
  /\ buildPrompt s = baseInstruction ++ " [object Object]"
  /\ buildPrompt s <> baseInstruction ++ " undefined"
  /\ Str.includes "undefined" (buildPrompt s) = false.
Proof.
  intros s. split; [not_listed |].
  split; [vm_compute; reflexivity |].
  split; [apply strings_differ; vm_compute; reflexivity |].
  vm_compute; reflexivity.
Qed.

(** ** The image codec *)

Lemma get_mem (s : string) (k : nat) (c : ascii) :
  String.get k s = Some c -> Str.mem c s = true.
Proof.
  revert k. induction s as [|a s IH]; intros k; simpl; [discriminate |].
  destruct k as [|k].
  - intros E. inversion E; subst. now rewrite Ascii.eqb_refl.
  - intros E. destruct (Ascii.eqb a c); [reflexivity | exact (IH k E)].
Qed.

Lemma digit_not_comma (n : N) : Ascii.eqb (Base64.digit n) ","%char = false.
Proof.
  unfold Base64.digit.
  destruct (String.get (N.to_nat n) Base64.alphabet) as [c |] eqn:E;
    [| reflexivity].
  apply get_mem in E.
  destruct (Ascii.eqb_spec c ","%char) as [-> | _]; [| reflexivity].
  vm_compute in E. discriminate E.
Qed.

Lemma encode_without_comma (bytes : list Byte.byte) :
  Str.mem ","%char (Base64.encode bytes) = false.
Proof.
  functional induction (Base64.encode bytes); simpl;
    rewrite ?digit_not_comma; auto.
Qed.

Lemma dataUri_shape (type payload : string) :
  dataUri (VString type) (VString payload)
  = (("data:" ++ type) ++ ";base64") ++ String ","%char payload.
Proof.
  unfold dataUri. simpl template.
  change (";base64," ++ payload) with (";base64" ++ String ","%char payload).
  now rewrite !append_assoc.
Qed.

Lemma split_dataUri (type payload : string) :
  Str.mem ","%char type = false ->
  Str.mem ","%char payload = false ->
  Str.split ","%char (dataUri (VString type) (VString payload))
  = [("data:" ++ type) ++ ";base64"; payload].
Proof.
  intros Ht Hp.
  rewrite dataUri_shape, split_at_first_sep.
  - now rewrite (split_without_sep _ _ Hp).
  - rewrite !mem_append, Ht. reflexivity.
Qed.

Lemma media_type_without_comma (f : File) :
  Str.mem ","%char (file_type f) = false ->
  Str.mem ","%char (media_type f) = false.
Proof.
  unfold media_type. destruct (String.eqb (file_type f) EmptyString);
    [reflexivity | trivial].
Qed.

(** For a readable file whose MIME type has no comma, [fileToBase64]
    resolves with the base64 text of the file's bytes. *)
Lemma fileToBase64_payload (f : File) (bytes : list Byte.byte) (s : Page) :
  file_content f = Some bytes ->
  Str.mem ","%char (file_type f) = false ->
  fileToBase64 f s = (Normal (Some (Base64.encode bytes)), s).
Proof.
  intros Hread Htype.
  unfold fileToBase64, readAsDataURL. rewrite Hread.
  now rewrite (split_dataUri _ _ (media_type_without_comma f Htype)
                 (encode_without_comma bytes)).
Qed.

(** C7.  The code at a readable file whose MIME type holds a comma: the
    reader's data URL has two commas, [split(',')[1]] is the piece of the
    prefix between them, and so [fileToBase64] resolves with text that is
    not the base64 text of the file's bytes; wrapping it with the file's
    MIME type does not give a data URI of those bytes. *)
Theorem fileToBase64_comma_in_type :
  file_content odd_photo = Some [Byte.x68; Byte.x69]
  /\ Base64.encode [Byte.x68; Byte.x69] = "aGk="
  /\ readAsDataURL odd_photo = Some "data:a,b;base64,aGk="
  /\ fileToBase64 odd_photo ready_page = (Normal (Some "b;base64"), ready_page)
  /\ "b;base64" <> Base64.encode [Byte.x68; Byte.x69]
  /\ dataUri (VString (file_type odd_photo)) (VString "b;base64")
     <> dataUri (VString (file_type odd_photo))
          (VString (Base64.encode [Byte.x68; Byte.x69])).
Proof.
  repeat (split; [reflexivity |]).
  split; apply strings_differ; reflexivity.
Qed.

(** ** The view controller *)

Lemma find_first_image (before after : list Part) (p : Part) (blob : InlineData) :
  Forall (fun q => inlineData q = None) before ->
  inlineData p = Some blob ->
  find hasInlineData (before ++ p :: after)%list = Some p.
Proof.
  intros Hbefore Hp.
  induction Hbefore as [| q before Hq _ IH]; simpl.
  - unfold hasInlineData. now rewrite Hp.
  - unfold hasInlineData at 1. now rewrite Hq.
Qed.

Lemma find_no_image (ps : list Part) :
  Forall (fun q => inlineData q = None) ps ->
  find hasInlineData ps = None.
Proof.
  intros H. induction H as [| q ps Hq _ IH]; simpl; [reflexivity |].
  unfold hasInlineData at 1. now rewrite Hq.
Qed.

(** What [displayResult] does with a part list whose first image part is
    [p]. *)
Lemma displayResult_image
  (before after : list Part) (p : Part) (blob : InlineData) (s : Page) :
  Forall (fun q => inlineData q = None) before ->
  inlineData p = Some blob ->
  displayResult (Some (before ++ p :: after)%list) s =
  (Normal tt,
   let url := dataUri (of_field (mimeType blob)) (of_field (data blob)) in
   set_downloadButton_display
     (set_downloadButton_href
        (set_comicOutputDiv_children s [Img url "Generated comic-style image"])
        url)
     "inline-block").
Proof.
  intros Hbefore Hp. unfold displayResult.
  rewrite (find_first_image _ _ _ _ Hbefore Hp), Hp.
  reflexivity.
Qed.

Lemma displayResult_no_image (ps : list Part) (s : Page) :
  Forall (fun q => inlineData q = None) ps ->
  displayResult (Some ps) s = (Normal tt, set_innerHTML noImageMarkup s).
Proof.
  intros H. unfold displayResult. now rewrite (find_no_image _ H).
Qed.

(** The request a click sends for a readable file [f]. *)
Lemma convert_body_request
  (ai : Remote) (f : File) (bytes : list Byte.byte) (s : Page) :
  uploadedFile s = Some f ->
  file_content f = Some bytes ->
  exists request,
    convert_body ai f s =
    bind (generateContent ai request)
      (fun response => bind (response_parts response) displayResult) s.
Proof.
  intros Hfile Hread.
  unfold convert_body, fileToBase64, readAsDataURL. rewrite Hread.
  unfold bind at 1, ret.
  unfold bind at 1, uploadedFile_type. rewrite Hfile.
  unfold bind at 1, gets.
  eexists. reflexivity.
Qed.

Lemma setLoadingState_uploadedFile (b : bool) (s : Page) :
  uploadedFile (setLoadingState b s) = uploadedFile s.
Proof. destruct b; reflexivity. Qed.

(** One click on a page holding a readable file, against a service that
    resolves with [response]: the page after the [try] block, before the
    [catch] and [finally] blocks run. *)
Lemma convert_body_resolved
  (ai : Remote) (f : File) (bytes : list Byte.byte) (s : Page)
  (response : GenerateContentResponse) :
  uploadedFile s = Some f ->
  file_content f = Some bytes ->
  (forall request, ai request = Resolved response) ->
  exists request,
    convert_body ai f s =
    bind (response_parts response) displayResult
      (set_requests s (requests s ++ [request])).
Proof.
  intros Hfile Hread Hai.
  destruct (convert_body_request ai f bytes s Hfile Hread) as [request E].
  exists request. rewrite E.
  unfold bind at 1, generateContent. now rewrite Hai.
Qed.

Lemma convert_body_rejected
  (ai : Remote) (f : File) (bytes : list Byte.byte) (s : Page)
  (reason : Thrown) :
  uploadedFile s = Some f ->
  file_content f = Some bytes ->
  (forall request, ai request = Rejected reason) ->
  exists request,
    convert_body ai f s =
    (Throw reason, set_requests s (requests s ++ [request])).
Proof.
  intros Hfile Hread Hai.
  destruct (convert_body_request ai f bytes s Hfile Hread) as [request E].
  exists request. rewrite E.
  unfold bind at 1, generateContent. now rewrite Hai.
Qed.

Lemma response_parts_present
  (response : GenerateContentResponse) (c : Candidate) (rest : list Candidate)
  (ps : option (list Part)) (s : Page) :
  candidates response = Some (c :: rest) ->
  content c = Some (mkContent ps) ->
  response_parts response s = (Normal ps, s).
Proof.
  intros Hc Hct. unfold response_parts. rewrite Hc. simpl. now rewrite Hct.
Qed.

Lemma response_parts_lacking
  (response : GenerateContentResponse) (s : Page) :
  lacks_parts response ->
  exists what,
    bind (response_parts response) displayResult s = (Throw (TypeError what), s).
Proof.
  unfold bind, response_parts.
  intros [H | [H | [c [rest [H [Hc | Hc]]]]]]; rewrite H; simpl;
    try rewrite Hc; simpl; eexists; reflexivity.
Qed.

(** Whatever the [try] block does, the [finally] block leaves the convert
    button enabled and relabelled. *)
Lemma finally_restores_button
  (body : M unit) (handler : Thrown -> Page -> Page) (s : Page) :
  let s' := try_catch_finally body handler (setLoadingState false) s in
  convertButton_disabled s' = false
  /\ convertButton_textContent s' = "Convert to Comic".
Proof.
  unfold try_catch_finally.
  destruct (body s) as [[u | e] s1]; split; reflexivity.
Qed.

(** C3.  A click while no file is selected makes no call to the remote
    service and changes nothing on the page: the only effect is the alert. *)
Theorem convert_without_file (ai : Remote) (s : Page) :
  uploadedFile s = None ->
  let s' := handleConvertToComic ai s in
  s' = set_alerts s (alerts s ++ ["Please upload an image first."])
  /\ requests s' = requests s
  /\ uploadedFile s' = uploadedFile s
  /\ originalImage_src s' = originalImage_src s
  /\ fileNameSpan_textContent s' = fileNameSpan_textContent s
  /\ comicOutputDiv_children s' = comicOutputDiv_children s
  /\ downloadButton_display s' = downloadButton_display s
  /\ downloadButton_href s' = downloadButton_href s
  /\ convertButton_disabled s' = convertButton_disabled s
  /\ convertButton_textContent s' = convertButton_textContent s
  /\ console_errors s' = console_errors s.
Proof.
  intros Hnone s'. subst s'.
  unfold handleConvertToComic. rewrite Hnone.
  repeat split; try reflexivity.
  exact Hnone.
Qed.

(** Witness for C3: a click on a fresh page. *)
Lemma convert_without_file_witness :
  let s := fresh_page "manga" false false None in
  let s' := handleConvertToComic (fun _ => Rejected (ServiceError "down")) s in
  uploadedFile s = None
  /\ requests s' = []
  /\ alerts s' = ["Please upload an image first."]
  /\ comicOutputDiv_children s' = [Markup placeholderMarkup].
Proof.
  intros s s'.
  destruct (convert_without_file (fun _ => Rejected (ServiceError "down")) s eq_refl)
    as [E [Hreq _]].
  split; [reflexivity |].
  split; [exact Hreq |].
  fold s' in E. rewrite E. split; reflexivity.
Defined.

(** C4.  When the service resolves with a part list in which [p] is the
    first part carrying inline data, [displayResult] shows one image whose
    source is the data URI of [p]'s MIME type and data and makes the
    download link visible with that URI as its href; and so does the whole
    click on a page holding a readable file. *)
Theorem convert_shows_first_image
  (ai : Remote) (s : Page) (f : File) (bytes : list Byte.byte)
  (response : GenerateContentResponse) (c : Candidate) (rest : list Candidate)
  (before after : list Part) (p : Part) (blob : InlineData) :
  uploadedFile s = Some f ->
  file_content f = Some bytes ->
  (forall request, ai request = Resolved response) ->
  candidates response = Some (c :: rest) ->
  content c = Some (mkContent (Some (before ++ p :: after)%list)) ->
  Forall (fun q => inlineData q = None) before ->
  inlineData p = Some blob ->
  let url := dataUri (of_field (mimeType blob)) (of_field (data blob)) in
  let shown (s' : Page) :=
    comicOutputDiv_children s' = [Img url "Generated comic-style image"]
    /\ downloadButton_href s' = url
    /\ downloadButton_display s' = "inline-block" in
  find hasInlineData (before ++ p :: after)%list = Some p
  /\ (forall s0,
        fst (displayResult (Some (before ++ p :: after)%list) s0) = Normal tt
        /\ shown (snd (displayResult (Some (before ++ p :: after)%list) s0)))
  /\ shown (handleConvertToComic ai s).
Proof.
  intros Hfile Hread Hai Hc Hct Hbefore Hp url shown.
  split; [exact (find_first_image _ _ _ _ Hbefore Hp) |].
  split.
  - intros s0. rewrite (displayResult_image _ _ _ _ s0 Hbefore Hp).
    split; [reflexivity | repeat split].
  - unfold handleConvertToComic. rewrite Hfile. unfold try_catch_finally.
    assert (Hfile' : uploadedFile (setLoadingState true s) = Some f)
      by now rewrite setLoadingState_uploadedFile.
    destruct (convert_body_resolved ai f bytes _ response Hfile' Hread Hai)
      as [request E].
    rewrite E. unfold bind.
    rewrite (response_parts_present _ _ _ _ _ Hc Hct).
    rewrite (displayResult_image _ _ _ _ _ Hbefore Hp).
    repeat split.
Qed.

(** Witness for C4: a text part followed by an image part. *)
Lemma convert_shows_first_image_witness :
  let ai : Remote :=
    fun _ => Resolved (respond_with (Some [text_part; image_part])) in
  let s' := handleConvertToComic ai ready_page in
  uploadedFile ready_page = Some photo
  /\ comicOutputDiv_children s'
     = [Img "data:image/png;base64,QUJD" "Generated comic-style image"]
  /\ downloadButton_href s' = "data:image/png;base64,QUJD"
  /\ downloadButton_display s' = "inline-block".
Proof.
  intros ai s'. split; [reflexivity |].
  exact (proj2 (proj2
    (convert_shows_first_image ai ready_page photo [Byte.x68; Byte.x69]
       (respond_with (Some [text_part; image_part]))
       (mkCandidate (Some (mkContent (Some [text_part; image_part])))) []
       [text_part] [] image_part
       (mkInlineData (Some "QUJD") (Some "image/png"))
       eq_refl eq_refl (fun _ => eq_refl) eq_refl eq_refl
       (Forall_cons text_part eq_refl (Forall_nil _)) eq_refl))).
Defined.

Ltac click Hfile :=
  unfold handleConvertToComic; rewrite Hfile; unfold try_catch_finally.

(** C6.  A click on a page holding a file always ends, whatever the read
    and the service did, with the convert button enabled and labelled
    "Convert to Comic"; when the service rejects, or when the file cannot
    be read, the output container holds the generic error message and the
    error was logged. *)
Theorem convert_always_restores_button (ai : Remote) (s : Page) (f : File) :
  uploadedFile s = Some f ->
  let s' := handleConvertToComic ai s in
  convertButton_disabled s' = false
  /\ convertButton_textContent s' = "Convert to Comic"
  /\ (forall bytes reason,
        file_content f = Some bytes ->
        (forall request, ai request = Rejected reason) ->
        comicOutputDiv_children s' = [Markup errorMarkup]
        /\ console_errors s' = (console_errors s ++ [reason])%list
        /\ downloadButton_display s' = "none")
  /\ (file_content f = None ->
      comicOutputDiv_children s' = [Markup errorMarkup]
      /\ console_errors s' = (console_errors s ++ [ProgressEvent])%list
      /\ requests s' = requests s).
Proof.
  intros Hfile s'. subst s'.
  assert (Hfile' : uploadedFile (setLoadingState true s) = Some f)
    by now rewrite setLoadingState_uploadedFile.
  click Hfile.
  split; [| split; [| split]].
  - apply (finally_restores_button (convert_body ai f) convert_catch).
  - apply (finally_restores_button (convert_body ai f) convert_catch).
  - intros bytes reason Hread Hai.
    destruct (convert_body_rejected ai f bytes _ reason Hfile' Hread Hai)
      as [request E].
    rewrite E. repeat split.
  - intros Hread.
    unfold convert_body, fileToBase64, readAsDataURL. rewrite Hread.
    repeat split.
Qed.

(** Witness for C6: the service rejects. *)
Lemma convert_always_restores_button_witness :
  let ai : Remote := fun _ => Rejected (ServiceError "503") in
  let s' := handleConvertToComic ai ready_page in
  uploadedFile ready_page = Some photo
  /\ convertButton_disabled s' = false
  /\ convertButton_textContent s' = "Convert to Comic"
  /\ comicOutputDiv_children s' = [Markup errorMarkup].
Proof.
  intros ai s'.
  destruct (convert_always_restores_button ai ready_page photo eq_refl)
    as [Hd [Ht [Hrej _]]].
  destruct (Hrej [Byte.x68; Byte.x69] (ServiceError "503") eq_refl
              (fun _ => eq_refl)) as [Hout _].
  split; [reflexivity |].
  split; [exact Hd | split; [exact Ht | exact Hout]].
Defined.

(** C9.  When the service resolves with a response that has no candidates,
    or whose first candidate has no content or no parts, reading the parts
    throws a TypeError inside the [try] block: the click ends with the
    generic error message, not the "could not generate" one, with the error
    logged and the convert button enabled again. *)
Theorem convert_response_without_parts
  (ai : Remote) (s : Page) (f : File) (bytes : list Byte.byte)
  (response : GenerateContentResponse) :
  uploadedFile s = Some f ->
  file_content f = Some bytes ->
  (forall request, ai request = Resolved response) ->
  lacks_parts response ->
  let s' := handleConvertToComic ai s in
  comicOutputDiv_children s' = [Markup errorMarkup]
  /\ comicOutputDiv_children s' <> [Markup noImageMarkup]
  /\ (exists what,
        console_errors s' = (console_errors s ++ [TypeError what])%list)
  /\ convertButton_disabled s' = false
  /\ convertButton_textContent s' = "Convert to Comic".
Proof.
  intros Hfile Hread Hai Hlack s'. subst s'.
  assert (Hfile' : uploadedFile (setLoadingState true s) = Some f)
    by now rewrite setLoadingState_uploadedFile.
  click Hfile.
  destruct (convert_body_resolved ai f bytes _ response Hfile' Hread Hai)
    as [request E].
  rewrite E.
  destruct (response_parts_lacking response
              (set_requests (setLoadingState true s)
                 (requests (setLoadingState true s) ++ [request])) Hlack)
    as [what T].
  rewrite T.
  split; [reflexivity |].
  split; [intros Habs; inversion Habs as [Hm]; revert Hm;
          apply strings_differ; reflexivity |].
  split; [exists what; reflexivity |].
  split; reflexivity.
Qed.

(** Witness for C9: a response with an empty candidate list. *)
Lemma convert_response_without_parts_witness :
  let ai : Remote := fun _ => Resolved (mkResponse (Some [])) in
  let s' := handleConvertToComic ai ready_page in
  lacks_parts (mkResponse (Some []))
  /\ comicOutputDiv_children s' = [Markup errorMarkup]
  /\ convertButton_disabled s' = false.
Proof.
  intros ai s'.
  assert (Hlack : lacks_parts (mkResponse (Some [])))
    by (right; left; reflexivity).
  destruct
    (convert_response_without_parts ai ready_page photo [Byte.x68; Byte.x69]
       (mkResponse (Some [])) eq_refl eq_refl (fun _ => eq_refl) Hlack)
    as [Hout [_ [_ [Hd _]]]].
  split; [exact Hlack | split; [exact Hout | exact Hd]].
Defined.

(** C10.  A change event whose file list is empty leaves the page as it
    was: the uploaded file, the file name, the preview, the convert button,
    the download link and the output container all keep their values. *)
Theorem handleFileChange_no_files (s : Page) :
  fileInput_files s = Some [] ->
  handleFileChange s = s.
Proof.
  intros H. unfold handleFileChange. now rewrite H.
Qed.

(** Witness for C10: a fresh page whose file input holds an empty list. *)
Lemma handleFileChange_no_files_witness :
  let s := fresh_page "manga" true false (Some []) in
  fileInput_files s = Some [] /\ handleFileChange s = s.
Proof.
  intros s. split; [reflexivity |].
  exact (handleFileChange_no_files s eq_refl).
Defined.


(** * Further properties of the module *)

(** ** One click, case by case *)

(** Reading the parts of a response and displaying them either throws a
    TypeError with the page untouched, or shows the no-image message, or
    shows an image. *)
Lemma display_cases (response : GenerateContentResponse) (s : Page) :
  (exists what,
     bind (response_parts response) displayResult s
     = (Throw (TypeError what), s))
  \/ bind (response_parts response) displayResult s
     = (Normal tt, set_innerHTML noImageMarkup s)
  \/ (exists url,
        bind (response_parts response) displayResult s
        = (Normal tt, with_image url s)).
Proof.
  unfold bind, response_parts.
  destruct (candidates response) as [[| c rest] |]; simpl;
    try (left; eexists; reflexivity).
  destruct (content c) as [[[ps |]] |]; simpl;
    try (left; eexists; reflexivity).
  destruct (find hasInlineData ps) as [p |] eqn:F.
  - destruct (inlineData p) as [blob |];
      [right; right; eexists; reflexivity | left; eexists; reflexivity].
  - right; left; reflexivity.
Qed.

(** The request literal of the [try] block, for a file whose read yields
    [url]. *)
Lemma convert_body_sends (ai : Remote) (f : File) (url : string) (s : Page) :
  uploadedFile s = Some f ->
  readAsDataURL f = Some url ->
  convert_body ai f s =
  bind
    (generateContent ai
       (conversion_request (nth_error (Str.split ","%char url) 1)
          (file_type f) (buildPrompt s)))
    (fun response => bind (response_parts response) displayResult) s.
Proof.
  intros Hfile Hurl.
  unfold convert_body, fileToBase64. rewrite Hurl.
  unfold bind at 1, ret.
  unfold bind at 1, uploadedFile_type. rewrite Hfile.
  reflexivity.
Qed.

Lemma buildPrompt_setLoadingState (b : bool) (s : Page) :
  buildPrompt (setLoadingState b s) = buildPrompt s.
Proof. destruct b; reflexivity. Qed.

(** A click on a page holding [f]: the request log grows by at most the one
    request of the [try] block, and the page ends in one of the three
    endings. *)
Lemma click_cases (ai : Remote) (s : Page) (f : File) :
  uploadedFile s = Some f ->
  let loading := setLoadingState true s in
  exists sent,
    (sent = []
     \/ exists url,
          readAsDataURL f = Some url
          /\ sent = [conversion_request (nth_error (Str.split ","%char url) 1)
                       (file_type f) (buildPrompt s)])
    /\ (readAsDataURL f = None -> sent = [])
    /\ (forall url, readAsDataURL f = Some url -> sent <> [])
    /\ Ending (set_requests loading (requests loading ++ sent))
         (handleConvertToComic ai s).
Proof.
  intros Hfile loading.
  assert (Hfile' : uploadedFile loading = Some f)
    by (unfold loading; now rewrite setLoadingState_uploadedFile).
  unfold handleConvertToComic. rewrite Hfile. unfold try_catch_finally.
  fold loading.
  destruct (readAsDataURL f) as [url |] eqn:Hurl.
  - eexists. split; [right; exists url; split; reflexivity |].
    split; [discriminate |].
    split; [intros ? _; discriminate |].
    rewrite (convert_body_sends ai f url loading Hfile' Hurl).
    pose proof (buildPrompt_setLoadingState true s) as Hprompt.
    fold loading in Hprompt. rewrite Hprompt.
    unfold bind at 1, generateContent.
    destruct (ai _) as [response | reason]; [| apply EndsCaught].
    match goal with
    | |- context [bind (response_parts response) displayResult ?p] =>
        destruct (display_cases response p) as [[what E] | [E | [u E]]]
    end; rewrite E; constructor.
  - exists []. split; [now left |].
    split; [reflexivity |].
    split; [discriminate |].
    unfold convert_body, fileToBase64. rewrite Hurl.
    replace (set_requests loading (requests loading ++ []))
      with loading.
    + apply EndsCaught.
    + rewrite app_nil_r. now destruct loading.
Qed.

(** ** Selecting a file *)

(** X1.  A change event with a non-empty file list takes the first file
    only: it becomes the uploaded file, its name is displayed, a preview
    read of it is started, the convert button is enabled, the download link
    is hidden and the output container is reset to the placeholder.  The
    preview source, the button label, the download href, the option
    controls and the logs are not touched. *)
Theorem handleFileChange_selects_first (s : Page) (f : File) (rest : list File) :
  fileInput_files s = Some (f :: rest) ->
  let s' := handleFileChange s in
  (uploadedFile s' = Some f
   /\ fileNameSpan_textContent s' = file_name f
   /\ readers s' = (readers s ++ [f])%list
   /\ convertButton_disabled s' = false
   /\ downloadButton_display s' = "none"
   /\ comicOutputDiv_children s' = [Markup placeholderMarkup])
  /\ (originalImage_src s' = originalImage_src s
      /\ convertButton_textContent s' = convertButton_textContent s
      /\ downloadButton_href s' = downloadButton_href s
      /\ buildPrompt s' = buildPrompt s
      /\ requests s' = requests s
      /\ alerts s' = alerts s
      /\ console_errors s' = console_errors s).
Proof.
  intros H s'. subst s'. unfold handleFileChange. rewrite H.
  repeat split.
Qed.

(** Witness for X1: two files offered while a conversion is shown as
    running; the first is taken and the label still reads Converting. *)
Lemma handleFileChange_selects_first_witness :
  let s :=
    setLoadingState true
      (fresh_page "manga" false false (Some [photo; odd_photo])) in
  let s' := handleFileChange s in
  fileInput_files s = Some [photo; odd_photo]
  /\ uploadedFile s' = Some photo
  /\ convertButton_disabled s' = false
  /\ convertButton_textContent s' = "Converting...".
Proof.
  intros s s'.
  destruct (handleFileChange_selects_first s photo [odd_photo] eq_refl)
    as [[Hf [_ [_ [Hd _]]]] [_ [Hl _]]].
  split; [reflexivity |].
  split; [exact Hf | split; [exact Hd |]].
  fold s' in Hl. rewrite Hl. reflexivity.
Defined.

(** ** The loading state *)

(** X3.  Turning the loading state on and then off does not bring back
    what turning it on replaced: the button is enabled and relabelled, but
    the output container still holds the spinner and the download link is
    still hidden.  Setting the same state twice is the same as setting it
    once. *)
Theorem setLoadingState_off_after_on (s : Page) :
  (let s' := setLoadingState false (setLoadingState true s) in
   convertButton_disabled s' = false
   /\ convertButton_textContent s' = "Convert to Comic"
   /\ comicOutputDiv_children s' = [Markup spinnerMarkup]
   /\ downloadButton_display s' = "none"
   /\ downloadButton_href s' = downloadButton_href s
   /\ uploadedFile s' = uploadedFile s)
  /\ forall b,
       setLoadingState b (setLoadingState b s) = setLoadingState b s.
Proof.
  split; [repeat split |].
  intros b. destruct b; reflexivity.
Qed.

(** ** The prompt *)

Lemma prefix_append (a b : string) : String.prefix a (a ++ b) = true.
Proof.
  induction a as [| x a IH]; simpl; [now destruct b |].
  destruct (ascii_dec x x) as [_ | N]; [exact IH | now elim N].
Qed.

(** X4.  Whatever the controls hold, also for a style outside the table,
    the prompt begins with the base instruction followed by a space, and
    nothing of the page other than the three option controls enters it. *)
Theorem buildPrompt_base_first (s : Page) :
  String.prefix (baseInstruction ++ " ") (buildPrompt s) = true
  /\ forall t,
       comicStyleSelect_value t = comicStyleSelect_value s ->
       keepBackgroundCheck_checked t = keepBackgroundCheck_checked s ->
       addFrameCheck_checked t = addFrameCheck_checked s ->
       buildPrompt t = buildPrompt s.
Proof.
  split.
  - rewrite buildPrompt_assembled. unfold assembled.
    rewrite <- (append_assoc baseInstruction " ").
    rewrite !append_assoc, <- (append_assoc baseInstruction " ").
    apply prefix_append.
  - intros t Hs Hk Ha. unfold buildPrompt. now rewrite Hs, Hk, Ha.
Qed.

(** Witness for X4: an unknown style, and a page that differs from it only
    outside the option controls. *)
Lemma buildPrompt_base_first_witness :
  let s := fresh_page "noir" true false None in
  String.prefix (baseInstruction ++ " ") (buildPrompt s) = true
  /\ buildPrompt ready_page
     = buildPrompt (fresh_page "manga" false true None).
Proof.
  intros s. split; [exact (proj1 (buildPrompt_base_first s)) |].
  exact (proj2 (buildPrompt_base_first (fresh_page "manga" false true None))
           ready_page eq_refl eq_refl eq_refl).
Defined.

(** ** The payload *)

Lemma split_not_empty (sep : ascii) (s : string) : Str.split sep s <> [].
Proof.
  destruct s as [| a s]; simpl; [discriminate |].
  destruct (Ascii.eqb a sep); [discriminate |].
  destruct (Str.split sep s); discriminate.
Qed.

Lemma split_segments (sep : ascii) (s : string) :
  Forall (fun seg => Str.mem sep seg = false) (Str.split sep s).
Proof.
  induction s as [| a s IH]; simpl.
  - constructor; [reflexivity | constructor].
  - destruct (Ascii.eqb a sep) eqn:E.
    + constructor; [reflexivity | exact IH].
    + destruct (Str.split sep s) as [| seg segs].
      * constructor; [simpl; now rewrite E | constructor].
      * inversion IH as [| ? ? Hseg Hsegs]; subst.
        constructor; [simpl; now rewrite E | exact Hsegs].
Qed.

Lemma split_second (sep : ascii) (s : string) :
  Str.mem sep s = true ->
  exists second, nth_error (Str.split sep s) 1 = Some second.
Proof.
  induction s as [| a s IH]; simpl; [discriminate |].
  destruct (Ascii.eqb a sep).
  - intros _. destruct (Str.split sep s) as [| seg segs] eqn:E.
    + now elim (split_not_empty sep s).
    + now exists seg.
  - intros H. destruct (IH H) as [second E].
    destruct (Str.split sep s) as [| seg segs]; [discriminate |].
    now exists second.
Qed.

(** X5.  For every readable file, whatever its MIME type, [fileToBase64]
    resolves with a string, never with [undefined], the string holds no
    comma, and the page is untouched; for an unreadable file it rejects
    with the reader's error event. *)
Theorem fileToBase64_defined (f : File) (s : Page) :
  (forall bytes,
     file_content f = Some bytes ->
     exists payload,
       fileToBase64 f s = (Normal (Some payload), s)
       /\ Str.mem ","%char payload = false)
  /\ (file_content f = None -> fileToBase64 f s = (Throw ProgressEvent, s)).
Proof.
  unfold fileToBase64, readAsDataURL. split.
  - intros bytes Hread. rewrite Hread.
    set (url := dataUri (VString (media_type f)) (VString (Base64.encode bytes))).
    assert (Hcomma : Str.mem ","%char url = true).
    { unfold url. rewrite dataUri_shape, mem_append. simpl.
      now rewrite Bool.orb_true_r. }
    destruct (split_second _ _ Hcomma) as [second E].
    exists second. unfold ret. rewrite E. split; [reflexivity |].
    pose proof (split_segments ","%char url) as Hall.
    rewrite Forall_forall in Hall. apply Hall.
    eapply nth_error_In. exact E.
  - intros Hread. now rewrite Hread.
Qed.

(** Witness for X5: the file whose MIME type holds a comma. *)
Lemma fileToBase64_defined_witness :
  file_content odd_photo = Some [Byte.x68; Byte.x69]
  /\ exists payload,
       fileToBase64 odd_photo ready_page = (Normal (Some payload), ready_page)
       /\ Str.mem ","%char payload = false.
Proof.
  split; [reflexivity |].
  exact (proj1 (fileToBase64_defined odd_photo ready_page)
           [Byte.x68; Byte.x69] eq_refl).
Defined.

(** ** The click *)

(** X8.  A click, with or without a file, never changes the uploaded file,
    the file input, the displayed file name, the preview, the option
    controls or the pending preview reads: the same file can be converted
    again, and with the same prompt. *)
Theorem convert_keeps_selection (ai : Remote) (s : Page) :
  let s' := handleConvertToComic ai s in
  uploadedFile s' = uploadedFile s
  /\ fileInput_files s' = fileInput_files s
  /\ fileNameSpan_textContent s' = fileNameSpan_textContent s
  /\ originalImage_src s' = originalImage_src s
  /\ comicStyleSelect_value s' = comicStyleSelect_value s
  /\ keepBackgroundCheck_checked s' = keepBackgroundCheck_checked s
  /\ addFrameCheck_checked s' = addFrameCheck_checked s
  /\ readers s' = readers s
  /\ buildPrompt s' = buildPrompt s.
Proof.
  intros s'. subst s'.
  destruct (uploadedFile s) as [f |] eqn:Hfile.
  - destruct (click_cases ai s f Hfile) as [sent [_ [_ [_ E]]]].
    destruct E; repeat split; exact Hfile.
  - unfold handleConvertToComic. rewrite Hfile. repeat split. exact Hfile.
Qed.

(** X9.  A click appends at most one request to those already made and
    removes none; it appends none when no file is selected or the file
    cannot be read, and exactly one when the file can be read, whatever
    the service answers.  With a file selected it shows no alert. *)
Theorem convert_at_most_one_request (ai : Remote) (s : Page) :
  let s' := handleConvertToComic ai s in
  exists sent,
    requests s' = (requests s ++ sent)%list
    /\ (uploadedFile s = None -> sent = [])
    /\ (forall f,
          uploadedFile s = Some f ->
          alerts s' = alerts s
          /\ (file_content f = None -> sent = [])
          /\ (forall bytes,
                file_content f = Some bytes -> exists r, sent = [r])).
Proof.
  intros s'. subst s'.
  destruct (uploadedFile s) as [f |] eqn:Hfile.
  - destruct (click_cases ai s f Hfile) as [sent [Hsent [Hnone [Hsome E]]]].
    exists sent. split; [destruct E; reflexivity |].
    split; [discriminate |].
    intros f' Hf'. inversion Hf'; subst f'.
    split; [destruct E; reflexivity |].
    unfold readAsDataURL in Hsent, Hnone, Hsome.
    split.
    + intros Hread. rewrite Hread in Hnone. now apply Hnone.
    + intros bytes Hread. rewrite Hread in Hsent, Hsome.
      destruct Hsent as [Hnil | [url [_ ->]]].
      * now elim (Hsome _ eq_refl).
      * eexists; reflexivity.
  - exists []. unfold handleConvertToComic. rewrite Hfile.
    split; [simpl; now rewrite app_nil_r |].
    split; [reflexivity | discriminate].
Qed.

(** ** Displaying a response *)

(** X10.  Only the first part carrying inline data counts: the parts
    without inline data before it and every part after it, images
    included, change nothing in what [displayResult] does. *)
Theorem displayResult_ignores_other_parts
  (before after : list Part) (p : Part) (blob : InlineData) (s : Page) :
  Forall (fun q => inlineData q = None) before ->
  inlineData p = Some blob ->
  displayResult (Some (before ++ p :: after)%list) s
  = displayResult (Some [p]) s.
Proof.
  intros Hbefore Hp.
  rewrite (displayResult_image before after p blob s Hbefore Hp).
  change [p] with (([] : list Part) ++ p :: [])%list.
  now rewrite (displayResult_image [] [] p blob s (Forall_nil _) Hp).
Qed.

(** Witness for X10: text, image, then another image. *)
Lemma displayResult_ignores_other_parts_witness :
  let later := mkPart (Some (mkInlineData (Some "WFla") (Some "image/jpeg"))) None in
  inlineData image_part = Some (mkInlineData (Some "QUJD") (Some "image/png"))
  /\ displayResult (Some [text_part; image_part; later]) ready_page
     = displayResult (Some [image_part]) ready_page.
Proof.
  intros later. split; [reflexivity |].
  exact (displayResult_ignores_other_parts [text_part] [later] image_part
           (mkInlineData (Some "QUJD") (Some "image/png")) ready_page
           (Forall_cons text_part eq_refl (Forall_nil _)) eq_refl).
Defined.

(** X11.  Only the first candidate of a response counts: two services whose
    responses have the same first candidate lead a click to the same
    page. *)
Theorem convert_first_candidate_only
  (ai ai' : Remote) (s : Page) (c : Candidate) (rest rest' : list Candidate) :
  (forall request, ai request = Resolved (mkResponse (Some (c :: rest)))) ->
  (forall request, ai' request = Resolved (mkResponse (Some (c :: rest')))) ->
  handleConvertToComic ai s = handleConvertToComic ai' s.
Proof.
  intros Hai Hai'.
  unfold handleConvertToComic.
  destruct (uploadedFile s) as [f |] eqn:Hfile; [| reflexivity].
  unfold try_catch_finally.
  assert (Hfile' : uploadedFile (setLoadingState true s) = Some f)
    by now rewrite setLoadingState_uploadedFile.
  destruct (readAsDataURL f) as [url |] eqn:Hurl.
  - rewrite !(convert_body_sends _ f url _ Hfile' Hurl).
    unfold bind at 1 3, generateContent. rewrite Hai, Hai'.
    reflexivity.
  - unfold convert_body, fileToBase64. now rewrite Hurl.
Qed.

(** Witness for X11: one candidate against the same candidate followed by
    an empty one. *)
Lemma convert_first_candidate_only_witness :
  let c := mkCandidate (Some (mkContent (Some [image_part]))) in
  handleConvertToComic (fun _ => Resolved (mkResponse (Some [c]))) ready_page
  = handleConvertToComic
      (fun _ => Resolved (mkResponse (Some [c; mkCandidate None]))) ready_page.
Proof.
  intros c.
  exact (convert_first_candidate_only _ _ ready_page c [] [mkCandidate None]
           (fun _ => eq_refl) (fun _ => eq_refl)).
Defined.

(** Witness for X9: one click on the page holding the PNG sample. *)
Lemma convert_at_most_one_request_witness :
  let ai : Remote := fun _ => Resolved (respond_with (Some [text_part])) in
  uploadedFile ready_page = Some photo
  /\ exists r, requests (handleConvertToComic ai ready_page) = [r].
Proof.
  intros ai. split; [reflexivity |].
  destruct (convert_at_most_one_request ai ready_page)
    as [sent [Hreq [_ Hfile]]].
  destruct (Hfile photo eq_refl) as [_ [_ Hone]].
  destruct (Hone [Byte.x68; Byte.x69] eq_refl) as [r Hr].
  exists r. rewrite Hreq, Hr. reflexivity.
Defined.

(** ** Sessions *)

Lemma click_uploadedFile (ai : Remote) (s : Page) :
  uploadedFile (handleConvertToComic ai s) = uploadedFile s.
Proof.
  destruct (uploadedFile s) as [f |] eqn:Hfile.
  - destruct (click_cases ai s f Hfile) as [sent [_ [_ [_ E]]]].
    destruct E; exact Hfile.
  - unfold handleConvertToComic. rewrite Hfile. exact Hfile.
Qed.

Lemma click_with_file (ai : Remote) (s : Page) (f : File) :
  uploadedFile s = Some f ->
  let s' := handleConvertToComic ai s in
  alerts s' = alerts s
  /\ convertButton_disabled s' = false
  /\ download_matches_image s'.
Proof.
  intros Hfile s'. subst s'. unfold download_matches_image.
  destruct (click_cases ai s f Hfile) as [sent [_ [_ [_ E]]]].
  destruct E; repeat split; try reflexivity; discriminate.
Qed.

Lemma select_files (s : Page) (files : list File) :
  let s' := handleFileChange (set_fileInput_files s (Some files)) in
  (files = [] /\ s' = set_fileInput_files s (Some []))
  \/ (exists f rest,
        files = f :: rest
        /\ uploadedFile s' = Some f
        /\ convertButton_disabled s' = false
        /\ downloadButton_display s' = "none"
        /\ alerts s' = alerts s
        /\ requests s' = requests s).
Proof.
  destruct files as [| f rest]; [left; split; reflexivity |].
  right. exists f, rest. repeat split.
Qed.

(** X12.  Once a file is selected, no sequence of selections, option
    changes, clicks and preview loads leaves the page without one: nothing
    in the module resets the uploaded file. *)
Theorem run_file_stays_selected (ai : Remote) (events : list Event) (s : Page) :
  uploadedFile s <> None ->
  uploadedFile (run ai events s) <> None.
Proof.
  unfold run. revert s.
  induction events as [| e events IH]; intros s Hs; [exact Hs |].
  simpl. apply IH.
  destruct e as [files | v | b | b | |]; simpl; try exact Hs.
  - destruct (select_files s files) as [[_ E] | [f [rest [_ [E _]]]]];
      rewrite E; [exact Hs | discriminate].
  - destruct (convertButton_disabled s); [exact Hs |].
    now rewrite click_uploadedFile.
  - unfold reader_onload. destruct (readers s) as [| f pending]; [exact Hs |].
    destruct (readAsDataURL f); exact Hs.
Qed.

(** Witness for X12: a cancelled selection, a click and a preview load
    after a file was selected. *)
Lemma run_file_stays_selected_witness :
  uploadedFile ready_page <> None
  /\ uploadedFile
       (run (fun _ => Rejected (ServiceError "503"))
          [SelectFiles []; ClickConvert; PreviewLoaded] ready_page)
     <> None.
Proof.
  assert (H : uploadedFile ready_page <> None) by discriminate.
  split; [exact H |].
  exact (run_file_stays_selected _ _ ready_page H).
Defined.

Lemma dispatch_enabled_means_file (ai : Remote) (s : Page) (e : Event) :
  enabled_means_file s ->
  enabled_means_file (dispatch ai s e) /\ alerts (dispatch ai s e) = alerts s.
Proof.
  unfold enabled_means_file. intros Inv.
  destruct e as [files | v | b | b | |]; simpl; try (split; [exact Inv | reflexivity]).
  - destruct (select_files s files)
      as [[_ E] | [f [rest [_ [Hf [_ [_ [Ha _]]]]]]]].
    + rewrite E. split; [exact Inv | reflexivity].
    + split; [intros _; rewrite Hf; discriminate | exact Ha].
  - destruct (convertButton_disabled s) eqn:Hd;
      [split; [intros H; congruence | reflexivity] |].
    destruct (uploadedFile s) as [f |] eqn:Hfile;
      [| now elim (Inv eq_refl)].
    destruct (click_with_file ai s f Hfile) as [Ha _].
    split; [| exact Ha].
    intros _. rewrite click_uploadedFile, Hfile. discriminate.
  - unfold reader_onload. destruct (readers s) as [| f pending];
      [split; [exact Inv | reflexivity] |].
    destruct (readAsDataURL f); split; try exact Inv; reflexivity.
Qed.

(** X13.  On a page where an enabled convert button means a file has been
    selected (so, a page loaded with the button disabled), this stays so
    through every session, and the "Please upload an image first." alert is
    never shown: a disabled button dispatches no click, and only a file
    selection or a click that had a file enables it. *)
Theorem run_never_alerts (ai : Remote) (events : list Event) (s : Page) :
  enabled_means_file s ->
  enabled_means_file (run ai events s)
  /\ alerts (run ai events s) = alerts s.
Proof.
  unfold run. revert s.
  induction events as [| e events IH]; intros s Inv;
    [split; [exact Inv | reflexivity] |].
  simpl.
  destruct (dispatch_enabled_means_file ai s e Inv) as [Inv' Ha].
  destruct (IH _ Inv') as [Inv'' Ha'].
  split; [exact Inv'' | now rewrite Ha', Ha].
Qed.

(** Witness for X13: clicks before and after a selection on a fresh page. *)
Lemma run_never_alerts_witness :
  let s := fresh_page "manga" false false None in
  enabled_means_file s
  /\ alerts
       (run (fun _ => Rejected (ServiceError "503"))
          [ClickConvert; SelectFiles [photo]; ClickConvert] s)
     = [].
Proof.
  intros s.
  assert (H : enabled_means_file s) by (intros E; discriminate E).
  split; [exact H |].
  exact (proj2 (run_never_alerts _ _ s H)).
Defined.

(** X15.  Before any file has been selected the remote service is never
    called: from a page with no uploaded file, a session in which no
    selection offers a file makes no request and ends with no uploaded
    file, however many clicks it holds and whether or not the button is
    enabled. *)
Theorem run_no_request_without_file
  (ai : Remote) (events : list Event) (s : Page) :
  uploadedFile s = None ->
  Forall (fun e => forall f rest, e <> SelectFiles (f :: rest)) events ->
  requests (run ai events s) = requests s
  /\ uploadedFile (run ai events s) = None.
Proof.
  unfold run. revert s.
  induction events as [| e events IH]; intros s Hnone Hev;
    [split; [reflexivity | exact Hnone] |].
  inversion Hev as [| ? ? He Hrest]; subst.
  simpl.
  assert (Hstep : requests (dispatch ai s e) = requests s
                  /\ uploadedFile (dispatch ai s e) = None).
  { destruct e as [files | v | b | b | |]; simpl;
      try (split; [reflexivity | exact Hnone]).
    - destruct files as [| f rest]; [| now elim (He f rest)].
      split; [reflexivity | exact Hnone].
    - destruct (convertButton_disabled s);
        [split; [reflexivity | exact Hnone] |].
      unfold handleConvertToComic. rewrite Hnone.
      split; [reflexivity | exact Hnone].
    - unfold reader_onload. destruct (readers s) as [| f pending];
        [split; [reflexivity | exact Hnone] |].
      destruct (readAsDataURL f); split; try reflexivity; exact Hnone. }
  destruct Hstep as [Hr Hu].
  destruct (IH _ Hu Hrest) as [Hr' Hu'].
  split; [now rewrite Hr', Hr | exact Hu'].
Qed.

(** Witness for X15: clicks and option changes on a page whose button is
    enabled although nothing was uploaded. *)
Lemma run_no_request_without_file_witness :
  let s :=
    set_convertButton_disabled (fresh_page "manga" false false None) false in
  let events :=
    [ClickConvert; SelectStyle "western"; SelectFiles []; ClickConvert] in
  let ai : Remote := fun _ => Resolved (respond_with (Some [image_part])) in
  uploadedFile s = None
  /\ requests (run ai events s) = []
  /\ alerts (run ai events s)
     = ["Please upload an image first."; "Please upload an image first."].
Proof.
  intros s events ai.
  assert (Hev : Forall (fun e => forall f rest, e <> SelectFiles (f :: rest))
                  events)
    by (repeat constructor; discriminate).
  split; [reflexivity |].
  split; [exact (proj1 (run_no_request_without_file ai events s eq_refl Hev)) |].
  reflexivity.
Defined.


(** ** The click handler between its awaits *)

Lemma build_request_cases (file : File) (s : Page) :
  (exists url g,
     readAsDataURL file = Some url
     /\ uploadedFile s = Some g
     /\ build_request file s
        = (Normal (conversion_request (nth_error (Str.split ","%char url) 1)
                     (file_type g) (buildPrompt s)), s))
  \/ (exists e, build_request file s = (Throw e, s)).
Proof.
  unfold build_request, fileToBase64.
  destruct (readAsDataURL file) as [url |]; [| right; eexists; reflexivity].
  unfold bind, ret, gets, uploadedFile_type.
  destruct (uploadedFile s) as [g |]; [| right; eexists; reflexivity].
  left. exists url, g. repeat split.
Qed.

Lemma after_read_cases (file : File) (s : Page) :
  (exists url g,
     readAsDataURL file = Some url
     /\ uploadedFile s = Some g
     /\ let request :=
          conversion_request (nth_error (Str.split ","%char url) 1)
            (file_type g) (buildPrompt s) in
        after_read file s
        = (set_requests s (requests s ++ [request]),
           Some (AwaitingResponse request)))
  \/ ((readAsDataURL file = None \/ uploadedFile s = None)
      /\ exists e,
           after_read file s = (setLoadingState false (convert_catch e s), None)).
Proof.
  unfold after_read, build_request, fileToBase64.
  destruct (readAsDataURL file) as [url |];
    [| right; split; [now left | eexists; reflexivity]].
  unfold bind, ret, gets, uploadedFile_type.
  destruct (uploadedFile s) as [g |];
    [| right; split; [now right | eexists; reflexivity]].
  left. exists url, g. repeat split.
Qed.

Lemma after_response_ending (settled : Settled) (s : Page) :
  Ending s (after_response settled s).
Proof.
  unfold after_response, try_catch_finally.
  destruct settled as [response | reason]; [| apply EndsCaught].
  destruct (display_cases response s) as [[what E] | [E | [u E]]];
    rewrite E; constructor.
Qed.

Lemma after_response_no_image
  (c : Candidate) (rest : list Candidate) (ps : list Part) (s : Page) :
  content c = Some (mkContent (Some ps)) ->
  Forall (fun q => inlineData q = None) ps ->
  after_response (Resolved (mkResponse (Some (c :: rest)))) s
  = setLoadingState false (set_innerHTML noImageMarkup s).
Proof.
  intros Hc Hps. unfold after_response, try_catch_finally, bind.
  rewrite (response_parts_present (mkResponse (Some (c :: rest))) c rest
             (Some ps) s eq_refl Hc).
  now rewrite (displayResult_no_image _ _ Hps).
Qed.

Lemma step_click (w : World) (f : File) :
  convertButton_disabled (page w) = false ->
  uploadedFile (page w) = Some f ->
  step w (User ClickConvert)
  = mkWorld (setLoadingState true (page w)) (inflight w ++ [AwaitingRead f]).
Proof.
  intros Hd Hf. unfold step, click_start. now rewrite Hd, Hf.
Qed.

(** The handler run in one piece is the handler cut at its awaits with
    nothing in between, the service answering as [ai] does. *)
Lemma uninterleaved_click (ai : Remote) (s : Page) (f : File) :
  uploadedFile s = Some f ->
  let started := click_start (mkWorld s []) in
  let sent := step started (ReadSettles 0) in
  handleConvertToComic ai s
  = page match inflight sent with
         | [AwaitingResponse request] =>
             step sent (ResponseSettles 0 (ai request))
         | _ => sent
         end.
Proof.
  intros Hfile started sent.
  assert (Hfile' : uploadedFile (setLoadingState true s) = Some f)
    by now rewrite setLoadingState_uploadedFile.
  assert (Hstart : started = mkWorld (setLoadingState true s) [AwaitingRead f]).
  { unfold started, click_start. cbn [page inflight]. now rewrite Hfile. }
  assert (Hsent :
            sent = match after_read f (setLoadingState true s) with
                   | (s', Some flow) => mkWorld s' [flow]
                   | (s', None) => mkWorld s' []
                   end).
  { unfold sent. rewrite Hstart. unfold step. cbn [nth_error inflight page].
    destruct (after_read f (setLoadingState true s)) as [s' [flow |]];
      reflexivity. }
  rewrite Hsent. clear Hsent Hstart sent started.
  unfold handleConvertToComic. rewrite Hfile. unfold try_catch_finally.
  destruct (readAsDataURL f) as [url |] eqn:Hurl.
  - rewrite (convert_body_sends ai f url _ Hfile' Hurl).
    destruct (after_read_cases f (setLoadingState true s))
      as [[url' [g [Hu [Hg E]]]] | [[Hn | Hn] _]]; [| congruence | congruence].
    rewrite Hurl in Hu. inversion Hu; subst url'.
    rewrite Hfile' in Hg. inversion Hg; subst g.
    cbv zeta in E. rewrite E.
    cbn [inflight]. unfold step. cbn [nth_error inflight page remove_nth].
    unfold bind at 1, generateContent.
    unfold after_response, try_catch_finally.
    destruct (ai _) as [response | reason]; reflexivity.
  - unfold convert_body, after_read, build_request, fileToBase64.
    rewrite Hurl. reflexivity.
Qed.

Lemma step_read_sent
  (w : World) (i : nat) (f g : File) (url : string) :
  nth_error (inflight w) i = Some (AwaitingRead f) ->
  readAsDataURL f = Some url ->
  uploadedFile (page w) = Some g ->
  let request :=
    conversion_request (nth_error (Str.split ","%char url) 1)
      (file_type g) (buildPrompt (page w)) in
  step w (ReadSettles i)
  = mkWorld (set_requests (page w) (requests (page w) ++ [request]))
      (replace_nth i (AwaitingResponse request) (inflight w)).
Proof.
  intros Hflow Hurl Hg request. unfold step. rewrite Hflow.
  destruct (after_read_cases f (page w))
    as [[url' [g' [Hu [Hg' E]]]] | [[Hn | Hn] _]]; [| congruence | congruence].
  rewrite Hurl in Hu. inversion Hu; subst url'.
  rewrite Hg in Hg'. inversion Hg'; subst g'.
  cbv zeta in E. now rewrite E.
Qed.

Lemma step_read_failed (w : World) (i : nat) (f : File) :
  nth_error (inflight w) i = Some (AwaitingRead f) ->
  readAsDataURL f = None ->
  step w (ReadSettles i)
  = mkWorld (setLoadingState false (convert_catch ProgressEvent (page w)))
      (remove_nth i (inflight w)).
Proof.
  intros Hflow Hurl. unfold step. rewrite Hflow.
  unfold after_read, build_request, fileToBase64. now rewrite Hurl.
Qed.

Lemma step_response
  (w : World) (i : nat) (request : Request) (settled : Settled) :
  nth_error (inflight w) i = Some (AwaitingResponse request) ->
  step w (ResponseSettles i settled)
  = mkWorld (after_response settled (page w)) (remove_nth i (inflight w)).
Proof.
  intros Hflow. unfold step. now rewrite Hflow.
Qed.

Lemma readable (f : File) (bytes : list Byte.byte) :
  file_content f = Some bytes ->
  readAsDataURL f
  = Some (dataUri (VString (media_type f)) (VString (Base64.encode bytes))).
Proof. intros H. unfold readAsDataURL. now rewrite H. Qed.

(** ** A response without an image *)

(** C5, as the code has it.  When the response of a conversion in flight
    holds no part with inline data, the output container shows the "could
    not generate" message, which is not the generic error message, nothing
    is logged and the button is enabled again; the download link is left as
    it was when the response arrived.  It is therefore hidden when the
    conversion ran alone, from its click to its response. *)
Theorem response_without_image
  (w : World) (i : nat) (request : Request)
  (c : Candidate) (rest : list Candidate) (ps : list Part) :
  nth_error (inflight w) i = Some (AwaitingResponse request) ->
  content c = Some (mkContent (Some ps)) ->
  Forall (fun q => inlineData q = None) ps ->
  let response := mkResponse (Some (c :: rest)) in
  (let w' := step w (ResponseSettles i (Resolved response)) in
   comicOutputDiv_children (page w') = [Markup noImageMarkup]
   /\ noImageMarkup <> errorMarkup
   /\ downloadButton_display (page w') = downloadButton_display (page w)
   /\ console_errors (page w') = console_errors (page w)
   /\ convertButton_disabled (page w') = false
   /\ inflight w' = remove_nth i (inflight w))
  /\ (forall v f bytes,
        inflight v = [] ->
        convertButton_disabled (page v) = false ->
        uploadedFile (page v) = Some f ->
        file_content f = Some bytes ->
        let v' :=
          play [User ClickConvert; ReadSettles 0;
                ResponseSettles 0 (Resolved response)] v in
        comicOutputDiv_children (page v') = [Markup noImageMarkup]
        /\ downloadButton_display (page v') = "none"
        /\ inflight v' = []).
Proof.
  intros Hflow Hc Hps response. split.
  - unfold step. rewrite Hflow. cbn [page inflight].
    unfold response. rewrite (after_response_no_image c rest ps _ Hc Hps).
    repeat split. apply strings_differ. reflexivity.
  - intros v f bytes Hidle Hd Hfile Hread v'. subst v'.
    unfold play. cbn [fold_left].
    rewrite (step_click v f Hd Hfile), Hidle. cbn [app].
    assert (Hfile' : uploadedFile (setLoadingState true (page v)) = Some f)
      by now rewrite setLoadingState_uploadedFile.
    erewrite (step_read_sent _ 0 f f);
      [| reflexivity | exact (readable f bytes Hread) | exact Hfile'].
    cbn [replace_nth inflight page].
    erewrite (step_response _ 0); [| reflexivity].
    cbn [page inflight remove_nth].
    unfold response. rewrite (after_response_no_image c rest ps _ Hc Hps).
    repeat split.
Qed.

(** Witness for C5: the one conversion of a session gets a text part. *)
Lemma response_without_image_witness :
  let w :=
    play [User (SelectFiles [photo]); User ClickConvert; ReadSettles 0]
      (mkWorld (fresh_page "manga" false true None) []) in
  let w' :=
    step w (ResponseSettles 0 (Resolved (respond_with (Some [text_part])))) in
  (exists request, nth_error (inflight w) 0 = Some (AwaitingResponse request))
  /\ comicOutputDiv_children (page w') = [Markup noImageMarkup]
  /\ downloadButton_display (page w') = "none".
Proof.
  intros w w'.
  assert (Hflow : exists request,
             nth_error (inflight w) 0 = Some (AwaitingResponse request))
    by (eexists; vm_compute; reflexivity).
  split; [exact Hflow |].
  destruct Hflow as [request Hflow].
  destruct (response_without_image w 0 request
              (mkCandidate (Some (mkContent (Some [text_part])))) []
              [text_part] Hflow eq_refl
              (Forall_cons text_part eq_refl (Forall_nil _)))
    as [[Hout [_ [Hlink _]]] _].
  split; [exact Hout |].
  transitivity (downloadButton_display (page w));
    [exact Hlink | vm_compute; reflexivity].
Defined.

(** Counterexample to C5 as stated: two conversions overlap, which the page
    allows because selecting a file enables the convert button while a
    conversion is in flight.  The first response holds an image and shows
    the download link; the second holds only text and ends with the "could
    not generate" message beside the visible link. *)
Lemma overlapping_conversions_show_link :
  let w := play overlapping_session
             (mkWorld (fresh_page "manga" false true None) []) in
  comicOutputDiv_children (page w) = [Markup noImageMarkup]
  /\ downloadButton_display (page w) = "inline-block"
  /\ downloadButton_display (page w) <> "none"
  /\ inflight w = [].
Proof.
  intros w.
  split; [vm_compute; reflexivity |].
  split; [vm_compute; reflexivity |].
  split; [apply strings_differ |]; vm_compute; reflexivity.
Qed.

(** ** The preview *)

(** X2.  On a page with no preview read pending, selecting a file and
    letting its preview read finish sets the preview source to the data URL
    the reader produces for that file: its base64 text under its MIME type,
    or under [application/octet-stream] when the file has no type; no read
    is left pending.  When the read fails the preview source stays what it
    was, since that reader has no error handler. *)
Theorem preview_shows_selected_file (s : Page) (f : File) (rest : list File) :
  fileInput_files s = Some (f :: rest) ->
  readers s = [] ->
  let s' := reader_onload (handleFileChange s) in
  readers s' = []
  /\ uploadedFile s' = Some f
  /\ (forall bytes,
        file_content f = Some bytes ->
        originalImage_src s'
        = "data:"
            ++ (if String.eqb (file_type f) EmptyString
                then "application/octet-stream" else file_type f)
            ++ ";base64," ++ Base64.encode bytes)
  /\ (file_content f = None -> originalImage_src s' = originalImage_src s).
Proof.
  intros Hfiles Hreaders s'. subst s'.
  unfold handleFileChange. rewrite Hfiles.
  unfold reader_onload. cbn [readers set_innerHTML set_comicOutputDiv_children
    set_downloadButton_display set_convertButton_disabled set_readers
    set_fileNameSpan_textContent set_uploadedFile].
  rewrite Hreaders. cbn [app].
  unfold readAsDataURL.
  destruct (file_content f) as [bytes |].
  - repeat split; try discriminate.
    intros bytes' E. now inversion E.
  - repeat split; discriminate.
Qed.

(** Witness for X2: a file without a type. *)
Lemma preview_shows_selected_file_witness :
  let s := fresh_page "manga" false false (Some [untyped]) in
  let s' := reader_onload (handleFileChange s) in
  fileInput_files s = Some [untyped]
  /\ readers s = []
  /\ originalImage_src s' = "data:application/octet-stream;base64,aGk=".
Proof.
  intros s s'.
  destruct (preview_shows_selected_file s untyped [] eq_refl eq_refl)
    as [_ [_ [Hsrc _]]].
  split; [reflexivity | split; [reflexivity |]].
  exact (Hsrc [Byte.x68; Byte.x69] eq_refl).
Defined.

(** ** The request *)

Lemma nth_error_replace_nth {A} (l : list A) (i : nat) (x y : A) :
  nth_error l i = Some x ->
  nth_error (replace_nth i y l) i = Some y
  /\ length (replace_nth i y l) = length l.
Proof.
  revert i. induction l as [| a l IH]; intros [| i]; simpl; try discriminate.
  - intros _. split; reflexivity.
  - intros H. destruct (IH i H) as [Hn Hl]. split; [exact Hn | now rewrite Hl].
Qed.

(** X6.  When the read of a conversion's file finishes, exactly one request
    is appended and the conversion waits for its response.  For a file
    whose MIME type has no comma the request carries the model name, the
    base64 text of the bytes of the file that was uploaded when the click
    was made, the MIME type of the file that is uploaded when the read
    finishes, the prompt built from the controls as they are when the read
    finishes, and the modalities image and text.  When the conversion ran
    alone since its click, the two files are the same one. *)
Theorem read_settles_sends_request
  (w : World) (i : nat) (f g : File) (bytes : list Byte.byte) :
  nth_error (inflight w) i = Some (AwaitingRead f) ->
  file_content f = Some bytes ->
  Str.mem ","%char (file_type f) = false ->
  uploadedFile (page w) = Some g ->
  let sent (type prompt : string) :=
    mkRequest "gemini-2.5-flash-image-preview"
      [ mkPart (Some (mkInlineData (Some (Base64.encode bytes)) (Some type)))
          None;
        mkPart None (Some prompt) ]
      [IMAGE; TEXT] in
  (let w' := step w (ReadSettles i) in
   requests (page w')
   = (requests (page w) ++ [sent (file_type g) (buildPrompt (page w))])%list
   /\ nth_error (inflight w') i
      = Some (AwaitingResponse (sent (file_type g) (buildPrompt (page w))))
   /\ length (inflight w') = length (inflight w))
  /\ (forall v,
        inflight v = [] ->
        convertButton_disabled (page v) = false ->
        uploadedFile (page v) = Some f ->
        requests (page (play [User ClickConvert; ReadSettles 0] v))
        = (requests (page v) ++ [sent (file_type f) (buildPrompt (page v))])%list).
Proof.
  intros Hflow Hread Htype Hg sent.
  assert (Hsplit :
            nth_error
              (Str.split ","%char
                 (dataUri (VString (media_type f))
                    (VString (Base64.encode bytes)))) 1
            = Some (Base64.encode bytes)).
  { now rewrite (split_dataUri _ _ (media_type_without_comma f Htype)
                   (encode_without_comma bytes)). }
  split.
  - cbv zeta.
    rewrite (step_read_sent w i f g _ Hflow (readable f bytes Hread) Hg).
    cbn [page inflight]. rewrite Hsplit.
    destruct (nth_error_replace_nth (inflight w) i (AwaitingRead f)
                (AwaitingResponse (sent (file_type g) (buildPrompt (page w))))
                Hflow) as [Hn Hl].
    split; [reflexivity | split; [exact Hn | exact Hl]].
  - intros v Hidle Hd Hfile.
    unfold play. cbn [fold_left].
    rewrite (step_click v f Hd Hfile), Hidle. cbn [app].
    assert (Hfile' : uploadedFile (setLoadingState true (page v)) = Some f)
      by now rewrite setLoadingState_uploadedFile.
    erewrite (step_read_sent _ 0 f f);
      [| reflexivity | exact (readable f bytes Hread) | exact Hfile'].
    cbn [page inflight]. rewrite Hsplit.
    now rewrite buildPrompt_setLoadingState.
Qed.

(** Witness for X6: another file is selected while the first is being
    read; the request pairs the first file's bytes with the second file's
    type. *)
Lemma read_settles_sends_request_witness :
  let w :=
    play [User (SelectFiles [photo]); User ClickConvert;
          User (SelectFiles [sketch])]
      (mkWorld (fresh_page "manga" false true None) []) in
  nth_error (inflight w) 0 = Some (AwaitingRead photo)
  /\ uploadedFile (page w) = Some sketch
  /\ map req_parts (requests (page (step w (ReadSettles 0))))
     = [[ mkPart (Some (mkInlineData (Some "aGk=") (Some "image/jpeg"))) None;
          mkPart None (Some (buildPrompt (page w))) ]].
Proof.
  intros w.
  assert (Hflow : nth_error (inflight w) 0 = Some (AwaitingRead photo))
    by (vm_compute; reflexivity).
  assert (Hg : uploadedFile (page w) = Some sketch)
    by (vm_compute; reflexivity).
  split; [exact Hflow | split; [exact Hg |]].
  destruct (read_settles_sends_request w 0 photo sketch [Byte.x68; Byte.x69]
              Hflow eq_refl eq_refl Hg) as [[Hreq _] _].
  rewrite Hreq.
  replace (requests (page w)) with (@nil Request) by (vm_compute; reflexivity).
  reflexivity.
Defined.

(** ** The end of a conversion *)

Lemma ending_completed (before after : Page) :
  Ending before after ->
  Completed before after
  /\ comicOutputDiv_children after <> [Markup spinnerMarkup]
  /\ convertButton_disabled after = false
  /\ convertButton_textContent after = "Convert to Comic"
  /\ requests after = requests before
  /\ uploadedFile after = uploadedFile before.
Proof.
  intros E. destruct E as [e | | url].
  - split; [now apply CompletedError |].
    repeat split. intros H; inversion H.
  - split; [now apply CompletedNoImage |].
    repeat split. intros H; inversion H.
  - split; [now apply (CompletedImage _ _ url) |].
    repeat split. intros H; inversion H.
Qed.

(** X7.  However conversions and other events have interleaved before, a
    conversion ends, when its response arrives or its read fails, in one of
    three displays: the generic error message, the "could not generate"
    message, or exactly one image with the download link visible and its
    href equal to the image's source.  In the first two the download link
    keeps the visibility and the href it had just before.  The spinner is
    gone, the button is enabled and labelled "Convert to Comic", and the
    conversion is no longer in flight. *)
Theorem conversion_completes (w : World) (i : nat) :
  (forall request settled,
     nth_error (inflight w) i = Some (AwaitingResponse request) ->
     let w' := step w (ResponseSettles i settled) in
     Completed (page w) (page w')
     /\ comicOutputDiv_children (page w') <> [Markup spinnerMarkup]
     /\ convertButton_disabled (page w') = false
     /\ convertButton_textContent (page w') = "Convert to Comic"
     /\ inflight w' = remove_nth i (inflight w))
  /\ (forall f,
        nth_error (inflight w) i = Some (AwaitingRead f) ->
        file_content f = None ->
        let w' := step w (ReadSettles i) in
        comicOutputDiv_children (page w') = [Markup errorMarkup]
        /\ downloadButton_display (page w') = downloadButton_display (page w)
        /\ convertButton_disabled (page w') = false
        /\ convertButton_textContent (page w') = "Convert to Comic"
        /\ requests (page w') = requests (page w)
        /\ inflight w' = remove_nth i (inflight w)).
Proof.
  split.
  - intros request settled Hflow w'. subst w'.
    rewrite (step_response w i request settled Hflow). cbn [page inflight].
    destruct (ending_completed _ _ (after_response_ending settled (page w)))
      as [Hc [Hs [Hd [Hl _]]]].
    repeat split; assumption.
  - intros f Hflow Hread w'. subst w'.
    assert (Hurl : readAsDataURL f = None)
      by (unfold readAsDataURL; now rewrite Hread).
    rewrite (step_read_failed w i f Hflow Hurl).
    repeat split.
Qed.

(** Witness for X7: the second of two overlapping conversions is rejected
    after the first has shown its image; the error message appears and the
    link of the first image stays visible. *)
Lemma conversion_completes_witness :
  let w :=
    play [ User (SelectFiles [photo]); User ClickConvert; ReadSettles 0;
           User (SelectFiles [sketch]); User ClickConvert; ReadSettles 1;
           ResponseSettles 0 (Resolved (respond_with (Some [image_part]))) ]
      (mkWorld (fresh_page "manga" false true None) []) in
  let w' := step w (ResponseSettles 0 (Rejected (ServiceError "503"))) in
  (exists request, nth_error (inflight w) 0 = Some (AwaitingResponse request))
  /\ Completed (page w) (page w')
  /\ comicOutputDiv_children (page w') = [Markup errorMarkup]
  /\ downloadButton_display (page w') = "inline-block".
Proof.
  intros w w'.
  assert (Hflow : exists request,
             nth_error (inflight w) 0 = Some (AwaitingResponse request))
    by (eexists; vm_compute; reflexivity).
  split; [exact Hflow |].
  destruct Hflow as [request Hflow].
  destruct (proj1 (conversion_completes w 0) request
              (Rejected (ServiceError "503")) Hflow) as [Hc _].
  split; [exact Hc |].
  split; vm_compute; reflexivity.
Defined.

(** ** Sessions with conversions in flight *)

Lemma flow_present {A} (l : list A) (i : nat) (x y : A) :
  nth_error l i = Some x -> replace_nth i y l <> [].
Proof.
  destruct l as [| a l]; destruct i; simpl; discriminate.
Qed.

Lemma step_running_means_inflight (w : World) (h : Happening) :
  running_means_inflight w -> running_means_inflight (step w h).
Proof.
  unfold running_means_inflight. intros Inv.
  destruct h as [[files | v | b | b | |] | i | i settled].
  - destruct files as [| f rest]; [exact Inv |].
    cbn. intros [H | H]; [inversion H | apply Inv; now right].
  - exact Inv.
  - exact Inv.
  - exact Inv.
  - cbn [step]. destruct (convertButton_disabled (page w)); [exact Inv |].
    unfold click_start. destruct (uploadedFile (page w)) as [f |].
    + intros _. cbn [inflight].
      destruct (inflight w); discriminate.
    + exact Inv.
  - cbn [step]. unfold on_page, reader_onload. cbn [page inflight].
    destruct (readers (page w)) as [| f pending]; [exact Inv |].
    destruct (readAsDataURL f); exact Inv.
  - cbn [step]. destruct (nth_error (inflight w) i) as [[f | r] |] eqn:Hflow;
      try exact Inv.
    destruct (after_read_cases f (page w))
      as [[url [g [_ [_ E]]]] | [_ [e E]]].
    + cbv zeta in E. rewrite E. intros _. cbn [inflight].
      now apply (flow_present _ _ (AwaitingRead f)).
    + rewrite E. cbn [page]. intros [H | H]; inversion H.
  - cbn [step]. destruct (nth_error (inflight w) i) as [[f | r] |] eqn:Hflow;
      try exact Inv.
    cbn [page].
    destruct (ending_completed _ _ (after_response_ending settled (page w)))
      as [_ [Hs [_ [Hl _]]]].
    intros [H | H]; [now elim Hs | rewrite Hl in H; inversion H].
Qed.

(** X17.  Through every session, with conversions overlapping or not, the
    spinner and the "Converting..." label are on the page only while some
    conversion is in flight: when the last one has ended, neither is left
    behind. *)
Theorem play_running_means_inflight (happenings : list Happening) (w : World) :
  running_means_inflight w ->
  running_means_inflight (play happenings w).
Proof.
  unfold play. revert w.
  induction happenings as [| h rest IH]; intros w Inv; [exact Inv |].
  cbn [fold_left]. apply IH. now apply step_running_means_inflight.
Qed.

(** Witness for X17: the two overlapping conversions, to their end. *)
Lemma play_running_means_inflight_witness :
  let w := mkWorld (fresh_page "manga" false true None) [] in
  running_means_inflight w
  /\ running_means_inflight (play overlapping_session w)
  /\ inflight (play overlapping_session w) = [].
Proof.
  intros w.
  assert (H : running_means_inflight w).
  { intros [E | E]; [inversion E | vm_compute in E; discriminate E]. }
  split; [exact H |].
  split; [exact (play_running_means_inflight overlapping_session w H) |].
  vm_compute; reflexivity.
Defined.

Lemma step_alone_and_hidden (w : World) (h : Happening) :
  (h = User ClickConvert -> inflight w = []) ->
  alone_and_hidden w -> alone_and_hidden (step w h).
Proof.
  unfold alone_and_hidden, download_matches_image.
  intros Hclick [Hfl Hdl].
  destruct h as [[files | v | b | b | |] | i | i settled].
  - destruct files as [| f rest]; [split; [exact Hfl | exact Hdl] |].
    cbn. split; [| discriminate].
    destruct Hfl as [Hnil | [Hone _]]; [now left | right; now split].
  - split; [exact Hfl | exact Hdl].
  - split; [exact Hfl | exact Hdl].
  - split; [exact Hfl | exact Hdl].
  - cbn [step]. destruct (convertButton_disabled (page w));
      [split; [exact Hfl | exact Hdl] |].
    unfold click_start. rewrite (Hclick eq_refl).
    destruct (uploadedFile (page w)) as [f |].
    + cbn [page inflight app]. split; [| discriminate].
      right. split; [eexists; reflexivity | reflexivity].
    + unfold on_page. rewrite (Hclick eq_refl). cbn [page inflight].
      split; [now left | exact Hdl].
  - cbn [step]. unfold on_page, reader_onload. cbn [page inflight].
    destruct (readers (page w)) as [| f pending];
      [split; [exact Hfl | exact Hdl] |].
    destruct (readAsDataURL f); split; try exact Hfl; exact Hdl.
  - cbn [step]. destruct (nth_error (inflight w) i) as [[f | r] |] eqn:Hflow;
      try (split; [exact Hfl | exact Hdl]).
    destruct Hfl as [Hnil | [[flow Hone] Hhid]];
      [rewrite Hnil in Hflow; destruct i; discriminate |].
    rewrite Hone in *.
    destruct i as [| i]; [| destruct i; discriminate].
    destruct (after_read_cases f (page w))
      as [[url [g [_ [_ E]]]] | [_ [e E]]].
    + cbv zeta in E. rewrite E. cbn [page inflight replace_nth].
      split; [| cbn; rewrite Hhid; discriminate].
      right. split; [eexists; reflexivity | exact Hhid].
    + rewrite E. cbn [page inflight remove_nth].
      split; [now left | cbn; rewrite Hhid; discriminate].
  - cbn [step]. destruct (nth_error (inflight w) i) as [[f | r] |] eqn:Hflow;
      try (split; [exact Hfl | exact Hdl]).
    destruct Hfl as [Hnil | [[flow Hone] Hhid]];
      [rewrite Hnil in Hflow; destruct i; discriminate |].
    rewrite Hone in *.
    destruct i as [| i]; [| destruct i; discriminate].
    cbn [page inflight remove_nth].
    split; [now left |].
    destruct (after_response_ending settled (page w)) as [e | | url]; cbn.
    + rewrite Hhid. discriminate.
    + rewrite Hhid. discriminate.
    + reflexivity.
Qed.

(** X14.  In every session in which no click is made while a conversion is
    in flight, whatever else happens in between, whenever the download link
    is visible the output container holds exactly one generated image and
    the link's href is that image's source. *)
Theorem play_download_matches_image (happenings : list Happening) (w : World) :
  inflight w = [] ->
  download_matches_image (page w) ->
  one_at_a_time happenings w ->
  download_matches_image (page (play happenings w)).
Proof.
  intros Hidle Hdl Hone.
  assert (Inv : alone_and_hidden w) by (split; [now left | exact Hdl]).
  clear Hidle Hdl.
  enough (G : alone_and_hidden (play happenings w)) by exact (proj2 G).
  unfold play. revert w Hone Inv.
  induction happenings as [| h rest IH]; intros w Hone Inv; [exact Inv |].
  destruct Hone as [Hclick Hrest].
  cbn [fold_left]. apply IH; [exact Hrest |].
  now apply step_alone_and_hidden.
Qed.

(** Witness for X14: a second file is selected while the conversion of the
    first waits for its response, which then brings an image. *)
Lemma play_download_matches_image_witness :
  let w := mkWorld (fresh_page "manga" false true None) [] in
  let session :=
    [ User (SelectFiles [photo]); User ClickConvert; ReadSettles 0;
      User (SelectFiles [sketch]);
      ResponseSettles 0 (Resolved (respond_with (Some [image_part]))) ] in
  one_at_a_time session w
  /\ download_matches_image (page (play session w))
  /\ downloadButton_display (page (play session w)) = "inline-block".
Proof.
  intros w session.
  assert (Hone : one_at_a_time session w).
  { repeat (split; [first [discriminate | intros _; vm_compute; reflexivity] |]).
    exact I. }
  assert (Hdl : download_matches_image (page w))
    by (intros E; vm_compute in E; discriminate E).
  split; [exact Hone |].
  split; [exact (play_download_matches_image session w eq_refl Hdl Hone) |].
  vm_compute; reflexivity.
Defined.

(** X16.  From a page with no conversion in flight, selecting a non-empty
    file list, clicking, and letting that one conversion run to its end:
    the click reaches the handler, the conversion works on the first file
    of the selection and ends in one of three displays (error or no-image
    message with the download link hidden, or one image with the link
    visible and pointing at it), with the button enabled and relabelled; it
    has sent exactly one request when the file can be read and none when it
    cannot. *)
Theorem select_then_convert_alone
  (w : World) (f : File) (rest : list File) (settled : Settled) :
  inflight w = [] ->
  let w' :=
    play [ User (SelectFiles (f :: rest)); User ClickConvert;
           ReadSettles 0; ResponseSettles 0 settled ] w in
  inflight w' = []
  /\ uploadedFile (page w') = Some f
  /\ Outcome (page w')
  /\ convertButton_disabled (page w') = false
  /\ convertButton_textContent (page w') = "Convert to Comic"
  /\ (file_content f = None -> requests (page w') = requests (page w))
  /\ (forall bytes,
        file_content f = Some bytes ->
        exists r, requests (page w') = (requests (page w) ++ [r])%list).
Proof.
  intros Hidle w'. subst w'. unfold play. cbn [fold_left].
  set (ready := step w (User (SelectFiles (f :: rest)))).
  assert (Hfile : uploadedFile (page ready) = Some f) by reflexivity.
  assert (Hd : convertButton_disabled (page ready) = false) by reflexivity.
  assert (Hreq : requests (page ready) = requests (page w)) by reflexivity.
  assert (Hfl : inflight ready = []) by exact Hidle.
  rewrite (step_click ready f Hd Hfile), Hfl. cbn [app].
  assert (Hfile' : uploadedFile (setLoadingState true (page ready)) = Some f)
    by reflexivity.
  destruct (file_content f) as [bytes |] eqn:Hread.
  - erewrite (step_read_sent _ 0 f f);
      [| reflexivity | exact (readable f bytes Hread) | exact Hfile'].
    cbn [replace_nth inflight page].
    erewrite (step_response _ 0); [| reflexivity].
    cbn [page inflight remove_nth].
    match goal with
    | |- context [after_response settled ?p] =>
        destruct (after_response_ending settled p) as [e | | url]
    end.
    + repeat split; try discriminate; try (now apply ShowsError).
      intros ? _. eexists. reflexivity.
    + repeat split; try discriminate; try (now apply ShowsNoImage).
      intros ? _. eexists. reflexivity.
    + repeat split; try discriminate; try (now apply (ShowsImage _ url)).
      intros ? _. eexists. reflexivity.
  - assert (Hurl : readAsDataURL f = None)
      by (unfold readAsDataURL; now rewrite Hread).
    erewrite (step_read_failed _ 0 f); [| reflexivity | exact Hurl].
    cbn [remove_nth inflight page]. cbn [step nth_error inflight].
    repeat split; try discriminate.
    now apply ShowsError.
Qed.

(** Witness for X16: the PNG sample, converted alone, gets an image. *)
Lemma select_then_convert_alone_witness :
  let w := mkWorld (fresh_page "pop-art" true true None) [] in
  let w' :=
    play [ User (SelectFiles [photo]); User ClickConvert; ReadSettles 0;
           ResponseSettles 0 (Resolved (respond_with (Some [image_part]))) ]
      w in
  inflight w = []
  /\ uploadedFile (page w') = Some photo
  /\ Outcome (page w')
  /\ exists r, requests (page w') = [r].
Proof.
  intros w w'.
  destruct (select_then_convert_alone w photo []
              (Resolved (respond_with (Some [image_part]))) eq_refl)
    as [_ [Hf [Ho [_ [_ [_ Hone]]]]]].
  split; [reflexivity | split; [exact Hf | split; [exact Ho |]]].
  exact (Hone [Byte.x68; Byte.x69] eq_refl).
Defined.
